(** * registerDefaultSw: registration of the default service worker

    A shallow embedding of
    [packages/messaging/src/helpers/registerDefaultSw.ts] and a
    verification of its behaviour: the [registerDefaultSw] async function
    and the promise executor of [waitForRegistrationActive], run against a
    small model of the page (service workers, timers, promises) and of the
    host's events (time passing, a timer firing, a worker changing state). *)

From stdpp Require Import base numbers gmap strings pretty list.

Open Scope list_scope.

(** ** Data model *)

(** Service workers, timers and promises are objects with identity. They
    live in stores keyed by [nat]; a reference is the key. *)
Abbreviation SwId := nat (only parsing).
Abbreviation TimerId := nat (only parsing).
Abbreviation PromiseId := nat (only parsing).

(** What a promise is rejected with, or what a [throw] carries: the code
    only ever looks at it through [(e as Error)?.message]. *)
Inductive Reason : Type :=
  | Nullish                        (* null or undefined *)
  | ErrorObj (message : string)    (* new Error(message), a DOMException, ... *)
  | NoMessage.                     (* a value without a [message] property *)

(** [(e as Error)?.message]; [None] is JavaScript's [undefined]. *)
Definition message_of (e : Reason) : option string :=
  match e with
  | ErrorObj message => Some message
  | Nullish | NoMessage => None
  end.

(** The only function this file ever stores in [onstatechange] is the arrow
    function of lines 81-87. It closes over [incomingSw], [rejectTimeout]
    and the [resolve] capability of one promise. *)
Inductive Listener : Type :=
  | OnStateChange (incomingSw : SwId) (rejectTimeout : TimerId) (settles : PromiseId).

Record ServiceWorker : Type := {
  state : string;
  onstatechange : option Listener
}.

(** [ServiceWorkerRegistration]: the three slots the code reads, each a
    worker reference or [null]. [handle] tells two registrations apart. *)
Record Registration : Type := {
  handle : nat;
  active : option SwId;
  installing : option SwId;
  waiting : option SwId
}.

(** The callback given to [setTimeout] on lines 68-73: it closes over the
    [reject] capability of one promise. *)
Inductive TimerCallback : Type :=
  | RejectAfterTimeout (settles : PromiseId).

Record Timer : Type := {
  deadline : N;
  callback : TimerCallback
}.

Inductive PromiseState : Type :=
  | Pending
  | Fulfilled
  | Rejected (reason : Reason).

(** Values held by the fields of the messaging context. *)
Inductive Value : Type :=
  | VRegistration (registration : Registration)
  | VString (s : string)
  | VBool (b : bool).

(** [MessagingService], as far as this file is concerned: an object, that
    is a finite map from field names to values. *)
Abbreviation MessagingService := (gmap string Value) (only parsing).

(** Modelled from the spec: the [ErrorCode] enum of [util/errors] is not
    part of the sources at hand; the spec names the one member used here,
    the other members are kept apart by their key. *)
Inductive ErrorCode : Type :=
  | FAILED_DEFAULT_REGISTRATION
  | OtherCode (key : string).

(** What a caller of [registerDefaultSw] can catch. *)
Inductive Thrown : Type :=
  | Raw (e : Reason)
  | FirebaseError (code : ErrorCode) (browserErrorMessage : option string).

(** Modelled from the spec: [ERROR_FACTORY] of [util/errors] is not part of
    the sources at hand; [create] builds the public error of the given
    kind with the given context attached. *)
Definition ERROR_FACTORY_create (code : ErrorCode) (browserErrorMessage : option string) : Thrown :=
  FirebaseError code browserErrorMessage.

(** Equality of all of these is decidable. *)
#[global] Instance Reason_eq_dec : EqDecision Reason.
Proof. solve_decision. Defined.
#[global] Instance Listener_eq_dec : EqDecision Listener.
Proof. solve_decision. Defined.
#[global] Instance ServiceWorker_eq_dec : EqDecision ServiceWorker.
Proof. solve_decision. Defined.
#[global] Instance Registration_eq_dec : EqDecision Registration.
Proof. solve_decision. Defined.
#[global] Instance TimerCallback_eq_dec : EqDecision TimerCallback.
Proof. solve_decision. Defined.
#[global] Instance Timer_eq_dec : EqDecision Timer.
Proof. solve_decision. Defined.
#[global] Instance PromiseState_eq_dec : EqDecision PromiseState.
Proof. solve_decision. Defined.
#[global] Instance Value_eq_dec : EqDecision Value.
Proof. solve_decision. Defined.
#[global] Instance ErrorCode_eq_dec : EqDecision ErrorCode.
Proof. solve_decision. Defined.
#[global] Instance Thrown_eq_dec : EqDecision Thrown.
Proof. solve_decision. Defined.

(** ** Journal

    Every call the code makes on a capability it was given is written down
    in order: host calls, accesses to the messaging context, timers,
    settling functions and assignments to [onstatechange]. The journal is
    ghost state: nothing in the model reads it. *)
Inductive Action : Type :=
  | CallRegister (path scope : string)
  | CallUpdate (registration : Registration)
  | WriteField (field : string) (v : Value)
  | ReadField (field : string)
  | NewPromise (p : PromiseId)
  | CallSetTimeout (t : TimerId) (delay : N)
  | CallClearTimeout (t : TimerId)
  | CallResolve (p : PromiseId)
  | CallReject (p : PromiseId) (e : Reason)
  | AssignOnStateChange (sw : SwId) (l : option Listener)
  | UnhandledRejection (e : Reason).

#[global] Instance Action_eq_dec : EqDecision Action.
Proof. solve_decision. Defined.

(** ** The page *)
Record World : Type := {
  clock : N;
  workers : gmap nat ServiceWorker;
  timers : gmap nat Timer;
  next_timer : TimerId;
  promises : gmap nat PromiseState;
  next_promise : PromiseId;
  journal : list Action
}.

Definition record (a : Action) (w : World) : World :=
  {| clock := clock w; workers := workers w; timers := timers w;
     next_timer := next_timer w; promises := promises w;
     next_promise := next_promise w; journal := journal w ++ [a] |}.

Definition with_clock (c : N) (w : World) : World :=
  {| clock := c; workers := workers w; timers := timers w;
     next_timer := next_timer w; promises := promises w;
     next_promise := next_promise w; journal := journal w |}.

Definition with_workers (ws : gmap nat ServiceWorker) (w : World) : World :=
  {| clock := clock w; workers := ws; timers := timers w;
     next_timer := next_timer w; promises := promises w;
     next_promise := next_promise w; journal := journal w |}.

Definition with_timers (ts : gmap nat Timer) (w : World) : World :=
  {| clock := clock w; workers := workers w; timers := ts;
     next_timer := next_timer w; promises := promises w;
     next_promise := next_promise w; journal := journal w |}.

Definition with_promises (ps : gmap nat PromiseState) (w : World) : World :=
  {| clock := clock w; workers := workers w; timers := timers w;
     next_timer := next_timer w; promises := ps;
     next_promise := next_promise w; journal := journal w |}.

(** ** Host primitives *)

(** [new Promise(...)]: a fresh pending promise. *)
Definition new_promise (w : World) : PromiseId * World :=
  let p := next_promise w in
  (p, record (NewPromise p)
        {| clock := clock w; workers := workers w; timers := timers w;
           next_timer := next_timer w;
           promises := <[p := Pending]> (promises w);
           next_promise := S p; journal := journal w |}).

(** The settling functions of a promise: only the first call has an
    effect. *)
Definition settle (p : PromiseId) (s : PromiseState) (w : World) : World :=
  match promises w !! p with
  | Some Pending => with_promises (<[p := s]> (promises w)) w
  | _ => w
  end.

Definition resolve (p : PromiseId) (w : World) : World :=
  settle p Fulfilled (record (CallResolve p) w).

Definition reject (p : PromiseId) (e : Reason) (w : World) : World :=
  settle p (Rejected e) (record (CallReject p e) w).

(** [setTimeout(callback, delay)]: arms a timer and returns its id. *)
Definition setTimeout (cb : TimerCallback) (delay : N) (w : World) : TimerId * World :=
  let t := next_timer w in
  (t, record (CallSetTimeout t delay)
        {| clock := clock w; workers := workers w;
           timers := <[t := {| deadline := (clock w + delay)%N; callback := cb |}]> (timers w);
           next_timer := S t; promises := promises w;
           next_promise := next_promise w; journal := journal w |}).

(** [clearTimeout(id)]: an id that is not armed is ignored. *)
Definition clearTimeout (t : TimerId) (w : World) : World :=
  with_timers (delete t (timers w)) (record (CallClearTimeout t) w).

(** [sw.onstatechange = l]. *)
Definition set_onstatechange (sw : SwId) (l : option Listener) (w : World) : World :=
  with_workers
    (alter (λ o, {| state := state o; onstatechange := l |}) sw (workers w))
    (record (AssignOnStateChange sw l) w).

(** The host moves a worker to another lifecycle state. *)
Definition set_state (sw : SwId) (s : string) (w : World) : World :=
  with_workers
    (alter (λ o, {| state := s; onstatechange := onstatechange o |}) sw (workers w)) w.

Definition promise_state (p : PromiseId) (w : World) : PromiseState :=
  default Pending (promises w !! p).

Definition listener_of (sw : SwId) (w : World) : option Listener :=
  workers w !! sw ≫= onstatechange.

(** [a || b] on two nullable references. *)
Definition or_else {A : Type} (a b : option A) : option A :=
  match a with
  | Some _ => a
  | None => b
  end.

(** How a request to the host ends. *)
Inductive Settlement (A : Type) : Type :=
  | Resolves (a : A)
  | Rejects (e : Reason)
  | NeverSettles.
Arguments Resolves {A} a.
Arguments Rejects {A} e.
Arguments NeverSettles {A}.

(** [promise.catch(onRejected)]: the derived promise. *)
Definition promise_catch {A : Type} (s : Settlement A) (onRejected : Reason → Settlement A)
  : Settlement A :=
  match s with
  | Rejects e => onRejected e
  | _ => s
  end.

(** An expression statement whose value is a promise nobody keeps: a
    rejection in it has no handler, which the host reports. *)
Definition discard {A : Type} (s : Settlement A) (w : World) : World :=
  match s with
  | Rejects e => record (UnhandledRejection e) w
  | _ => w
  end.

(** What the host does while the page waits. *)
Inductive Event : Type :=
  | Elapse (ms : N)                            (* time passes *)
  | TimerFires (t : TimerId)                   (* the host runs a timer that is due *)
  | StateChange (sw : SwId) (s : string)       (* a worker changes state; [statechange] is dispatched at it *)
  | Deliver (sw : SwId) (target : option SwId). (* a [statechange] event object handed to [sw.onstatechange] *)

(** The host, as one call of [registerDefaultSw] meets it: how it answers
    [navigator.serviceWorker.register(path, {scope})] and
    [registration.update()], the text its engine gives a [TypeError], and
    what it does while the call awaits activation. *)
Record Host : Type := {
  register : string → string → Settlement Registration;
  update : Registration → Settlement unit;
  type_error : string;
  schedule : list Event
}.

(** How the [try] block ends, and how the async function does. *)
Inductive Completion : Type :=
  | Normal
  | Throw (e : Reason)
  | Suspended.

Inductive Outcome : Type :=
  | Returned
  | Threw (e : Thrown)
  | StillAwaiting.

(** ** Constants

    [util/constants] is not part of the sources at hand: its three
    constants are parameters of everything below. Numbers are rendered in
    decimal, as a template literal does for an integer below 10^21. *)
Class Constants : Type := {
  DEFAULT_SW_PATH : string;
  DEFAULT_SW_SCOPE : string;
  DEFAULT_REGISTRATION_TIMEOUT : N
}.

Section Code.
Context {constants : Constants}.

Definition timeout_message : string :=
  "Service worker not registered after " +:+ pretty DEFAULT_REGISTRATION_TIMEOUT +:+ " ms".

Definition no_incoming_message : string := "No incoming service worker found.".

(** ** waitForRegistrationActive (lines 63-93) *)

(** The body of the [onstatechange] arrow function (lines 81-87), given
    [(ev.target as ServiceWorker)?.state]. *)
Definition run_listener (l : Listener) (target_state : option string) (w : World) : World :=
  match l with
  | OnStateChange incomingSw rejectTimeout p =>
      if decide (target_state = Some "activated") then
        let w := set_onstatechange incomingSw None w in
        let w := clearTimeout rejectTimeout w in
        resolve p w
      else w
  end.

(** The body of the timer callback (lines 68-73). *)
Definition run_callback (cb : TimerCallback) (w : World) : World :=
  match cb with
  | RejectAfterTimeout p => reject p (ErrorObj timeout_message) w
  end.

Definition waitForRegistrationActive (registration : Registration) (w : World)
  : PromiseId * World :=
  let '(p, w) := new_promise w in
  let '(rejectTimeout, w) :=
    setTimeout (RejectAfterTimeout p) DEFAULT_REGISTRATION_TIMEOUT w in
  let incomingSw := or_else (installing registration) (waiting registration) in
  match active registration with
  | Some _ =>
      let w := clearTimeout rejectTimeout w in
      (p, resolve p w)
  | None =>
      match incomingSw with
      | Some sw =>
          (p, set_onstatechange sw (Some (OnStateChange sw rejectTimeout p)) w)
      | None =>
          let w := clearTimeout rejectTimeout w in
          (p, reject p (ErrorObj no_incoming_message) w)
      end
  end.

(** ** Host events *)

(** [(ev.target as ServiceWorker)?.state]: [None] when the event has no
    target. *)
Definition target_state (target : option SwId) (w : World) : option string :=
  target ≫= λ i, state <$> workers w !! i.

(** The host calls [sw.onstatechange(ev)], if there is one. *)
Definition dispatch (sw : SwId) (target : option SwId) (w : World) : World :=
  match listener_of sw w with
  | Some l => run_listener l (target_state target w) w
  | None => w
  end.

Definition step (ev : Event) (w : World) : World :=
  match ev with
  | Elapse ms => with_clock (clock w + ms)%N w
  | TimerFires t =>
      match timers w !! t with
      | Some tm =>
          if decide (deadline tm ≤ clock w)%N
          then run_callback (callback tm) (with_timers (delete t (timers w)) w)
          else w
      | None => w
      end
  | StateChange sw s => dispatch sw (Some sw) (set_state sw s w)
  | Deliver sw target => dispatch sw target w
  end.

Definition run (evs : list Event) (w : World) : World :=
  foldl (λ w ev, step ev w) w evs.

(** [await p]: the host goes through its schedule until [p] is settled;
    the async function resumes right then. *)
Fixpoint await (p : PromiseId) (evs : list Event) (w : World) : PromiseState * World :=
  match promise_state p w with
  | Pending =>
      match evs with
      | [] => (Pending, w)
      | ev :: evs => await p evs (step ev w)
      end
  | s => (s, w)
  end.

(** ** registerDefaultSw (lines 27-52) *)

Definition set_field (f : string) (v : Value) (m : MessagingService) (w : World)
  : MessagingService * World :=
  (<[f := v]> m, record (WriteField f v) w).

Definition get_field (f : string) (m : MessagingService) (w : World)
  : option Value * World :=
  (m !! f, record (ReadField f) w).

(** The [try] block, lines 31-46. *)
Definition try_block (host : Host) (messaging : MessagingService) (w : World)
  : Completion * MessagingService * World :=
  let w := record (CallRegister DEFAULT_SW_PATH DEFAULT_SW_SCOPE) w in
  match register host DEFAULT_SW_PATH DEFAULT_SW_SCOPE with
  | Rejects e => (Throw e, messaging, w)
  | NeverSettles => (Suspended, messaging, w)
  | Resolves r =>
      let '(messaging, w) := set_field "swRegistration" (VRegistration r) messaging w in
      match get_field "swRegistration" messaging w with
      | (Some (VRegistration r1), w) =>
          let w := record (CallUpdate r1) w in
          let w := discard (promise_catch (update host r1) (λ _, Resolves ())) w in
          match get_field "swRegistration" messaging w with
          | (Some (VRegistration r2), w) =>
              let '(p, w) := waitForRegistrationActive r2 w in
              match await p (schedule host) w with
              | (Fulfilled, w) => (Normal, messaging, w)
              | (Rejected e, w) => (Throw e, messaging, w)
              | (Pending, w) => (Suspended, messaging, w)
              end
          | (_, w) => (Throw (ErrorObj (type_error host)), messaging, w)
          end
      | (_, w) => (Throw (ErrorObj (type_error host)), messaging, w)
      end
  end.

(** [w] is the page as the host has it when it answers [register]. *)
Definition registerDefaultSw (host : Host) (messaging : MessagingService) (w : World)
  : Outcome * MessagingService * World :=
  match try_block host messaging w with
  | (Normal, messaging, w) => (Returned, messaging, w)
  | (Throw e, messaging, w) =>
      (Threw (ERROR_FACTORY_create FAILED_DEFAULT_REGISTRATION (message_of e)), messaging, w)
  | (Suspended, messaging, w) => (StillAwaiting, messaging, w)
  end.

(** ** Well-formed pages and the invariant of one call *)

(** Every reference held by a listener or a timer callback was allocated
    before, and a listener sits on the worker it closes over. *)
Definition listener_ok (w : World) (i : SwId) (l : Listener) : Prop :=
  match l with
  | OnStateChange sw t p => sw = i ∧ t < next_timer w ∧ p < next_promise w
  end.

Definition timer_ok (w : World) (t : TimerId) (tm : Timer) : Prop :=
  t < next_timer w ∧
  match callback tm with
  | RejectAfterTimeout p => p < next_promise w
  end.

Definition World_ok (w : World) : Prop :=
  map_Forall (λ i o, from_option (listener_ok w i) True (onstatechange o)) (workers w)
  ∧ map_Forall (timer_ok w) (timers w).

#[global] Instance listener_ok_dec w i l : Decision (listener_ok w i l).
Proof. destruct l; apply _. Defined.
#[global] Instance timer_ok_dec w t tm : Decision (timer_ok w t tm).
Proof. destruct tm as [? []]; apply _. Defined.
#[global] Instance World_ok_dec w : Decision (World_ok w).
Proof.
  unfold World_ok. apply and_dec; [|apply _].
  apply map_Forall_dec. intros i o. destruct (onstatechange o); simpl; apply _.
Defined.

(** The worker whose state changes a call observes, if any (lines 76-80). *)
Definition observed (registration : Registration) : option SwId :=
  match active registration with
  | Some _ => None
  | None => or_else (installing registration) (waiting registration)
  end.

(** What holds of the page from the end of a call on: [t] and [p] are the
    call's timer and promise, [d] the timer's deadline and [osw] the
    observed worker. *)
Record Inv (osw : option SwId) (t : TimerId) (p : PromiseId) (d : N) (w : World) : Prop := {
  inv_listeners : ∀ i sw' t' p',
    listener_of i w = Some (OnStateChange sw' t' p') →
    sw' = i ∧ (t' = t ∨ p' = p → osw = Some i ∧ t' = t ∧ p' = p);
  inv_timers : ∀ t' tm,
    timers w !! t' = Some tm →
    t' = t ∨ callback tm = RejectAfterTimeout p →
    t' = t ∧ tm = {| deadline := d; callback := RejectAfterTimeout p |};
  inv_pending_armed :
    promises w !! p = Some Pending → is_Some (timers w !! t);
  inv_pending_attached : ∀ sw,
    osw = Some sw → is_Some (workers w !! sw) →
    promises w !! p = Some Pending →
    listener_of sw w = Some (OnStateChange sw t p);
  inv_armed_pending :
    is_Some (timers w !! t) → promises w !! p = Some Pending;
  inv_promise : is_Some (promises w !! p);
  inv_fulfilled_detached : ∀ sw,
    osw = Some sw → promises w !! p = Some Fulfilled → listener_of sw w = None
}.

(** Which [onstatechange] an event calls. *)
Definition event_worker (ev : Event) : option SwId :=
  match ev with
  | StateChange sw _ | Deliver sw _ => Some sw
  | Elapse _ | TimerFires _ => None
  end.

Definition attaches (a : Action) : Prop :=
  match a with
  | AssignOnStateChange _ (Some _) => True
  | _ => False
  end.

(** What the two closures can do when the host calls them. *)
Definition closure_action (a : Action) : Prop :=
  match a with
  | AssignOnStateChange _ None | CallClearTimeout _ | CallResolve _ | CallReject _ _ => True
  | _ => False
  end.

Definition context_access (a : Action) : Prop :=
  match a with
  | ReadField _ | WriteField _ _ => True
  | _ => False
  end.

Definition registers (a : Action) : Prop :=
  match a with
  | CallRegister _ _ => True
  | _ => False
  end.

Definition contains (needle hay : string) : Prop :=
  ∃ pre post, hay = pre +:+ needle +:+ post.

(** ** Around registerDefaultSw *)

(** The page at the moment [waitForRegistrationActive] is called, when the
    host has answered [register] with [r]. *)
Definition at_wait (host : Host) (r : Registration) (w : World) : World :=
  record (ReadField "swRegistration")
    (discard (promise_catch (update host r) (λ _, Resolves ()))
      (record (CallUpdate r)
        (record (ReadField "swRegistration")
          (record (WriteField "swRegistration" (VRegistration r))
            (record (CallRegister DEFAULT_SW_PATH DEFAULT_SW_SCOPE) w))))).

(** How the settlement of the awaited promise comes out of the [try]
    statement. *)
Definition surfaces (s : PromiseState) : Outcome :=
  match s with
  | Fulfilled => Returned
  | Rejected e => Threw (FirebaseError FAILED_DEFAULT_REGISTRATION (message_of e))
  | Pending => StillAwaiting
  end.

(** The same host, answering [update] differently. *)
Definition with_update (u : Registration → Settlement unit) (host : Host) : Host :=
  {| register := register host; update := u;
     type_error := type_error host; schedule := schedule host |}.

Definition reads_no_field (l : list Action) : Prop :=
  ∀ f, ReadField f ∉ l.

(** What the executor of [waitForRegistrationActive] and the two closures
    do. *)
Definition wait_action (a : Action) : Prop :=
  match a with
  | NewPromise _ | CallSetTimeout _ _ | CallClearTimeout _ | CallResolve _
  | CallReject _ _ | AssignOnStateChange _ _ => True
  | _ => False
  end.

Definition wait_reason (e : Reason) : Prop :=
  e = ErrorObj timeout_message ∨ e = ErrorObj no_incoming_message.

(** ** Schedules

    Time an event lets pass, and events that do not signal an activation
    at worker [sw]: anything but a state change of [sw] to "activated" or
    an event object handed to its listener. *)
Definition duration (ev : Event) : N :=
  match ev with
  | Elapse ms => ms
  | TimerFires _ | StateChange _ _ | Deliver _ _ => 0%N
  end.

Definition elapsed (evs : list Event) : N :=
  foldr (λ ev n, (duration ev + n)%N) 0%N evs.

Definition harmless (sw : SwId) (ev : Event) : Prop :=
  match ev with
  | StateChange i s => i = sw → s ≠ "activated"
  | Deliver i _ => i ≠ sw
  | Elapse _ | TimerFires _ => True
  end.

#[global] Instance Event_eq_dec : EqDecision Event.
Proof. solve_decision. Defined.

#[global] Instance harmless_dec sw ev : Decision (harmless sw ev).
Proof. destruct ev; simpl; apply _. Defined.

End Code.

(** ** A sample page

    Three workers, one per lifecycle stage, no timer, no promise; and the
    registrations and hosts used to run the code on it. *)
Definition sample_constants : Constants :=
  {| DEFAULT_SW_PATH := "/firebase-messaging-sw.js";
     DEFAULT_SW_SCOPE := "/firebase-cloud-messaging-push-scope";
     DEFAULT_REGISTRATION_TIMEOUT := 10000 |}.

Definition sample_page : World :=
  {| clock := 0;
     workers := {[ 1 := {| state := "installing"; onstatechange := None |};
                   2 := {| state := "installed"; onstatechange := None |};
                   3 := {| state := "activated"; onstatechange := None |} ]};
     timers := ∅; next_timer := 0;
     promises := ∅; next_promise := 0;
     journal := [] |}.

Definition installing_only : Registration :=
  {| handle := 10; active := None; installing := Some 1; waiting := None |}.

Definition waiting_only : Registration :=
  {| handle := 11; active := None; installing := None; waiting := Some 2 |}.

Definition installing_and_waiting : Registration :=
  {| handle := 12; active := None; installing := Some 1; waiting := Some 2 |}.

Definition active_and_installing : Registration :=
  {| handle := 13; active := Some 3; installing := Some 1; waiting := None |}.

Definition no_worker : Registration :=
  {| handle := 14; active := None; installing := None; waiting := None |}.

Definition sample_host (r : Settlement Registration) (u : Settlement unit)
    (evs : list Event) : Host :=
  {| register := λ _ _, r; update := λ _, u;
     type_error := "Cannot read properties of undefined"; schedule := evs |}.

Definition sample_messaging : gmap string Value :=
  {[ "deliveryMetricsExportedToBigQueryEnabled" := VBool false;
     "vapidKey" := VString "BDOU99" ]}.

(** * Proofs *)

Section Proofs.
Context {constants : Constants}.

(** ** Primitives, field by field *)

Lemma settle_promises q s w p :
  promises (settle q s w) !! p =
  if decide (p = q ∧ promises w !! q = Some Pending) then Some s else promises w !! p.
Proof.
  unfold settle. destruct (promises w !! q) as [[]|] eqn:Hq; simpl;
    case_decide as H; try (destruct H; congruence); try done.
  - destruct H as [-> _]. by rewrite lookup_insert_eq.
  - rewrite lookup_insert_ne; [done|]. intros ->. by apply H.
Qed.

Lemma settle_frame q s w :
  clock (settle q s w) = clock w ∧ workers (settle q s w) = workers w ∧
  timers (settle q s w) = timers w ∧ next_timer (settle q s w) = next_timer w ∧
  next_promise (settle q s w) = next_promise w ∧ journal (settle q s w) = journal w.
Proof. unfold settle. by destruct (promises w !! q) as [[]|]. Qed.

Lemma listener_of_set_onstatechange i l w j :
  listener_of j (set_onstatechange i l w) =
  if decide (i = j) then workers w !! i ≫= λ _, l else listener_of j w.
Proof.
  unfold listener_of, set_onstatechange. simpl. rewrite lookup_alter.
  case_decide; [subst|done]. by destruct (workers w !! j).
Qed.

Lemma listener_of_set_state i s w j :
  listener_of j (set_state i s w) = listener_of j w.
Proof.
  unfold listener_of, set_state. simpl. rewrite lookup_alter.
  case_decide; [subst|done]. by destruct (workers w !! j).
Qed.

Lemma is_Some_workers_alter (f : ServiceWorker → ServiceWorker) i (ws : gmap nat ServiceWorker) j :
  is_Some (alter f i ws !! j) ↔ is_Some (ws !! j).
Proof.
  rewrite lookup_alter. case_decide; [subst|done]. by rewrite fmap_is_Some.
Qed.


(** ** What a call leaves behind, branch by branch *)

Ltac unfold_call :=
  unfold waitForRegistrationActive, new_promise, setTimeout, clearTimeout,
    resolve, reject, set_onstatechange, record, with_timers, with_workers;
  cbn [clock workers timers next_timer promises next_promise journal fst snd].

Lemma wait_active registration w a :
  active registration = Some a →
  ∃ w1, waitForRegistrationActive registration w = (next_promise w, w1)
    ∧ clock w1 = clock w
    ∧ workers w1 = workers w
    ∧ timers w1 = delete (next_timer w)
        (<[next_timer w := {| deadline := (clock w + DEFAULT_REGISTRATION_TIMEOUT)%N;
                              callback := RejectAfterTimeout (next_promise w) |}]> (timers w))
    ∧ promises w1 = <[next_promise w := Fulfilled]> (promises w)
    ∧ next_timer w1 = S (next_timer w)
    ∧ next_promise w1 = S (next_promise w)
    ∧ journal w1 = journal w ++
        [NewPromise (next_promise w);
         CallSetTimeout (next_timer w) DEFAULT_REGISTRATION_TIMEOUT;
         CallClearTimeout (next_timer w);
         CallResolve (next_promise w)].
Proof.
  intros Ha. unfold_call. rewrite Ha. eexists; split; [reflexivity|].
  unfold settle; cbn [clock workers timers next_timer promises next_promise journal].
  rewrite lookup_insert_eq.
  cbn [with_promises clock workers timers next_timer promises next_promise journal].
  rewrite insert_insert_eq, <- !app_assoc. done.
Qed.

Lemma wait_none registration w :
  active registration = None →
  or_else (installing registration) (waiting registration) = None →
  ∃ w1, waitForRegistrationActive registration w = (next_promise w, w1)
    ∧ clock w1 = clock w
    ∧ workers w1 = workers w
    ∧ timers w1 = delete (next_timer w)
        (<[next_timer w := {| deadline := (clock w + DEFAULT_REGISTRATION_TIMEOUT)%N;
                              callback := RejectAfterTimeout (next_promise w) |}]> (timers w))
    ∧ promises w1 =
        <[next_promise w := Rejected (ErrorObj no_incoming_message)]> (promises w)
    ∧ next_timer w1 = S (next_timer w)
    ∧ next_promise w1 = S (next_promise w)
    ∧ journal w1 = journal w ++
        [NewPromise (next_promise w);
         CallSetTimeout (next_timer w) DEFAULT_REGISTRATION_TIMEOUT;
         CallClearTimeout (next_timer w);
         CallReject (next_promise w) (ErrorObj no_incoming_message)].
Proof.
  intros Ha Hi. unfold_call. rewrite Ha, Hi. eexists; split; [reflexivity|].
  unfold settle; cbn [clock workers timers next_timer promises next_promise journal].
  rewrite lookup_insert_eq.
  cbn [with_promises clock workers timers next_timer promises next_promise journal].
  rewrite insert_insert_eq, <- !app_assoc. done.
Qed.

Lemma wait_incoming registration w sw :
  active registration = None →
  or_else (installing registration) (waiting registration) = Some sw →
  ∃ w1, waitForRegistrationActive registration w = (next_promise w, w1)
    ∧ clock w1 = clock w
    ∧ workers w1 =
        alter (λ o, {| state := state o;
                       onstatechange :=
                         Some (OnStateChange sw (next_timer w) (next_promise w)) |})
              sw (workers w)
    ∧ timers w1 =
        <[next_timer w := {| deadline := (clock w + DEFAULT_REGISTRATION_TIMEOUT)%N;
                             callback := RejectAfterTimeout (next_promise w) |}]> (timers w)
    ∧ promises w1 = <[next_promise w := Pending]> (promises w)
    ∧ next_timer w1 = S (next_timer w)
    ∧ next_promise w1 = S (next_promise w)
    ∧ journal w1 = journal w ++
        [NewPromise (next_promise w);
         CallSetTimeout (next_timer w) DEFAULT_REGISTRATION_TIMEOUT;
         AssignOnStateChange sw
           (Some (OnStateChange sw (next_timer w) (next_promise w)))].
Proof.
  intros Ha Hi. unfold_call. rewrite Ha, Hi. eexists; split; [reflexivity|].
  rewrite <- !app_assoc. done.
Qed.

Lemma wait_promise registration w :
  (waitForRegistrationActive registration w).1 = next_promise w.
Proof.
  destruct (active registration) as [a|] eqn:Ha.
  - destruct (wait_active registration w a Ha) as (w1 & -> & _). done.
  - destruct (or_else (installing registration) (waiting registration)) as [sw|] eqn:Hi.
    + destruct (wait_incoming registration w sw Ha Hi) as (w1 & -> & _). done.
    + destruct (wait_none registration w Ha Hi) as (w1 & -> & _). done.
Qed.


(** ** A call establishes the invariant *)

Lemma World_ok_listener w i sw' t' p' :
  World_ok w →
  listener_of i w = Some (OnStateChange sw' t' p') →
  sw' = i ∧ t' < next_timer w ∧ p' < next_promise w.
Proof.
  intros [Hl _]. unfold listener_of.
  destruct (workers w !! i) as [o|] eqn:Ho; [|done]. simpl. intros Hon.
  specialize (Hl i o Ho). cbv beta in Hl. rewrite Hon in Hl. exact Hl.
Qed.

Lemma World_ok_timer w t' tm :
  World_ok w →
  timers w !! t' = Some tm →
  t' < next_timer w ∧ ∀ p', callback tm = RejectAfterTimeout p' → p' < next_promise w.
Proof.
  intros [_ Ht] Htm. destruct (Ht t' tm Htm) as [Hlt Hcb]. split; [done|].
  intros p' Hp'. by rewrite Hp' in Hcb.
Qed.

Lemma Inv_wait registration w :
  World_ok w →
  Inv (observed registration) (next_timer w) (next_promise w)
      (clock w + DEFAULT_REGISTRATION_TIMEOUT)%N
      (waitForRegistrationActive registration w).2.
Proof.
  intros Hok. unfold observed.
  destruct (active registration) as [a|] eqn:Ha;
    [|destruct (or_else (installing registration) (waiting registration)) as [sw|] eqn:Hi].
  - destruct (wait_active registration w a Ha)
      as (w1 & -> & _ & Hws & Hts & Hps & _). cbn [snd].
    split.
    + intros i sw' t' p'. unfold listener_of. rewrite Hws. intros Hl.
      destruct (World_ok_listener w i sw' t' p' Hok Hl) as (-> & ? & ?).
      split; [done|]. lia.
    + intros t' tm. rewrite Hts. intros [Hne Htm]%lookup_delete_Some.
      rewrite lookup_insert_ne in Htm by done.
      destruct (World_ok_timer w t' tm Hok Htm) as [? Hcb].
      intros [->|Hp]; [done|]. specialize (Hcb _ Hp). lia.
    + rewrite Hps, lookup_insert_eq. done.
    + done.
    + rewrite Hts, lookup_delete_eq. by intros [? ?].
    + rewrite Hps, lookup_insert_eq. eauto.
    + done.
  - destruct (wait_incoming registration w sw Ha Hi)
      as (w1 & -> & _ & Hws & Hts & Hps & _). cbn [snd].
    split.
    + intros i sw' t' p'. unfold listener_of. rewrite Hws, lookup_alter.
      case_decide as Hd.
      * subst i. destruct (workers w !! sw); simpl; [|done].
        intros [= <- <- <-]. done.
      * intros Hl.
        destruct (World_ok_listener w i sw' t' p' Hok Hl) as (-> & ? & ?).
        split; [done|]. lia.
    + intros t' tm. rewrite Hts, lookup_insert. case_decide as Hd.
      * subst t'. intros [= <-]. done.
      * intros Htm. destruct (World_ok_timer w t' tm Hok Htm) as [? Hcb].
        intros [->|Hp]; [done|]. specialize (Hcb _ Hp). lia.
    + rewrite Hts, lookup_insert_eq. eauto.
    + intros sw0 [= <-]. unfold listener_of. rewrite Hws, lookup_alter_eq.
      intros [o Ho]%fmap_is_Some _. by rewrite Ho.
    + rewrite Hps, lookup_insert_eq. done.
    + rewrite Hps, lookup_insert_eq. eauto.
    + rewrite Hps, lookup_insert_eq. done.
  - destruct (wait_none registration w Ha Hi)
      as (w1 & -> & _ & Hws & Hts & Hps & _). cbn [snd].
    split.
    + intros i sw' t' p'. unfold listener_of. rewrite Hws. intros Hl.
      destruct (World_ok_listener w i sw' t' p' Hok Hl) as (-> & ? & ?).
      split; [done|]. lia.
    + intros t' tm. rewrite Hts. intros [Hne Htm]%lookup_delete_Some.
      rewrite lookup_insert_ne in Htm by done.
      destruct (World_ok_timer w t' tm Hok Htm) as [? Hcb].
      intros [->|Hp]; [done|]. specialize (Hcb _ Hp). lia.
    + rewrite Hps, lookup_insert_eq. done.
    + done.
    + rewrite Hts, lookup_delete_eq. by intros [? ?].
    + rewrite Hps, lookup_insert_eq. eauto.
    + done.
Qed.


(** ** The two closures, field by field *)

Lemma run_listener_activated i t' p' ts w :
  ts = Some "activated" →
  let w' := run_listener (OnStateChange i t' p') ts w in
  clock w' = clock w
  ∧ workers w' = alter (λ o, {| state := state o; onstatechange := None |}) i (workers w)
  ∧ timers w' = delete t' (timers w)
  ∧ (∀ q, promises w' !! q =
          if decide (q = p' ∧ promises w !! p' = Some Pending)
          then Some Fulfilled else promises w !! q)
  ∧ next_timer w' = next_timer w
  ∧ next_promise w' = next_promise w
  ∧ journal w' = journal w ++
      [AssignOnStateChange i None; CallClearTimeout t'; CallResolve p'].
Proof.
  intros ->. unfold run_listener. rewrite decide_True by done.
  cbv zeta. unfold resolve.
  destruct (settle_frame p' Fulfilled
    (record (CallResolve p') (clearTimeout t' (set_onstatechange i None w))))
    as (-> & -> & -> & -> & -> & ->).
  repeat split; try done.
  - intros q. rewrite settle_promises. done.
  - unfold_call. by rewrite <- !app_assoc.
Qed.

Lemma run_listener_other l ts w :
  ts ≠ Some "activated" → run_listener l ts w = w.
Proof. intros Hne. destruct l. unfold run_listener. by rewrite decide_False. Qed.

Lemma run_callback_spec p' w :
  let w' := run_callback (RejectAfterTimeout p') w in
  clock w' = clock w
  ∧ workers w' = workers w
  ∧ timers w' = timers w
  ∧ (∀ q, promises w' !! q =
          if decide (q = p' ∧ promises w !! p' = Some Pending)
          then Some (Rejected (ErrorObj timeout_message)) else promises w !! q)
  ∧ next_timer w' = next_timer w
  ∧ next_promise w' = next_promise w
  ∧ journal w' = journal w ++ [CallReject p' (ErrorObj timeout_message)].
Proof.
  cbv zeta. unfold run_callback, reject.
  destruct (settle_frame p' (Rejected (ErrorObj timeout_message))
    (record (CallReject p' (ErrorObj timeout_message)) w))
    as (-> & -> & -> & -> & -> & ->).
  repeat split; try done.
  intros q. rewrite settle_promises. done.
Qed.

(** ** Events preserve the invariant *)

Ltac case_goal H :=
  match goal with
  | |- context [decide ?P] => destruct (decide P) as [H|H]
  end.

Lemma Inv_preserved osw t p d w w' :
  Inv osw t p d w →
  (∀ j l, listener_of j w' = Some l → listener_of j w = Some l) →
  (∀ t' tm, timers w' !! t' = Some tm → timers w !! t' = Some tm) →
  (∀ j, is_Some (workers w' !! j) → is_Some (workers w !! j)) →
  is_Some (promises w' !! p) →
  (promises w' !! p = Some Pending →
     promises w !! p = Some Pending
     ∧ timers w' !! t = timers w !! t
     ∧ ∀ sw, osw = Some sw → listener_of sw w' = listener_of sw w) →
  (promises w' !! p = Some Fulfilled →
     promises w !! p = Some Fulfilled
     ∨ ∀ sw, osw = Some sw → listener_of sw w' = None) →
  (promises w !! p = Some Pending →
     promises w' !! p = Some Pending ∨ timers w' !! t = None) →
  Inv osw t p d w'.
Proof.
  intros [Il It Ipa Ipl Iap Ip Ifd] Hl Ht Hw Hp Hpend Hful Hkeep. split.
  - intros i sw' t' p' Hi. eapply Il, Hl, Hi.
  - intros t' tm Htm. eapply It, Ht, Htm.
  - intros Hpe. destruct (Hpend Hpe) as (Hpe' & -> & _). auto.
  - intros sw Hosw Hin Hpe. destruct (Hpend Hpe) as (Hpe' & _ & Hsame).
    rewrite (Hsame sw Hosw). auto.
  - intros [tm Htm]. assert (Hpe : promises w !! p = Some Pending) by eauto.
    destruct (Hkeep Hpe) as [?|Hnone]; [done|congruence].
  - done.
  - intros sw Hosw Hf. destruct (Hful Hf) as [Hf'|Hnone]; [|by auto].
    specialize (Ifd sw Hosw Hf').
    destruct (listener_of sw w') as [l|] eqn:Hl'; [|done].
    apply Hl in Hl'. congruence.
Qed.

Lemma Inv_set_state osw t p d w i s :
  Inv osw t p d w → Inv osw t p d (set_state i s w).
Proof.
  intros HI. apply (Inv_preserved osw t p d w); try done.
  - intros j l. by rewrite listener_of_set_state.
  - intros j. unfold set_state; simpl. by rewrite is_Some_workers_alter.
  - by destruct HI.
  - intros Hpe. split_and!; [done..|]. intros sw _. apply listener_of_set_state.
  - auto.
  - auto.
Qed.

Lemma Inv_dispatch osw t p d w i target :
  Inv osw t p d w → Inv osw t p d (dispatch i target w).
Proof.
  intros HI. unfold dispatch.
  destruct (listener_of i w) as [[sw' t' p']|] eqn:Hli; [|done].
  destruct (decide (target_state target w = Some "activated"))
    as [Hact|Hact]; [|by rewrite run_listener_other].
  destruct (inv_listeners _ _ _ _ _ HI i sw' t' p' Hli) as [-> Hmine].
  destruct (run_listener_activated i t' p' _ w Hact)
    as (_ & Hws & Hts & Hps & _).
  set (w' := run_listener _ _ w) in *.
  assert (Hlo : ∀ j, listener_of j w' = if decide (i = j) then None else listener_of j w).
  { intros j. unfold listener_of. rewrite Hws, lookup_alter.
    case_goal Hd; [subst|done]. by destruct (workers w !! j). }
  apply (Inv_preserved osw t p d w).
  - done.
  - intros j l. rewrite Hlo. by case_goal Hd.
  - intros t'' tm. rewrite Hts. by intros [_ ?]%lookup_delete_Some.
  - intros j. by rewrite Hws, is_Some_workers_alter.
  - rewrite Hps. case_goal Hd; [eauto|]. by destruct HI.
  - rewrite Hps. case_goal Hd; [done|]. intros Hpe.
    assert (p ≠ p') as Hpp by (intros ->; by apply Hd).
    assert (t' ≠ t) as Htt by (intros ->; destruct Hmine as (_ & _ & ?); auto).
    split_and!; [done| |].
    + rewrite Hts. by apply lookup_delete_ne.
    + intros sw Hosw. rewrite Hlo. case_goal Hisw; [subst sw|done].
      assert (is_Some (workers w !! i)) as Hin.
      { unfold listener_of in Hli. destruct (workers w !! i); [eauto|done]. }
      pose proof (inv_pending_attached _ _ _ _ _ HI i Hosw Hin Hpe) as Hours.
      congruence.
  - rewrite Hps. case_goal Hd; [|auto]. intros _. right.
    destruct Hd as [<- _]. destruct Hmine as (Hosw & _ & _); [auto|].
    intros sw Hsw. rewrite Hlo. rewrite decide_True; [done|congruence].
  - intros Hpe. rewrite Hps. case_goal Hd; [|auto]. right.
    destruct Hd as [<- _]. destruct Hmine as (_ & -> & _); [auto|].
    rewrite Hts. apply lookup_delete_eq.
Qed.

Lemma Inv_timer_fires osw t p d w t' :
  Inv osw t p d w → Inv osw t p d (step (TimerFires t') w).
Proof.
  intros HI. unfold step.
  destruct (timers w !! t') as [[dl [p'']]|] eqn:Htm; [|done].
  case_goal Hdue; [|done]. cbn [callback].
  destruct (run_callback_spec p'' (with_timers (delete t' (timers w)) w))
    as (_ & Hws & Hts & Hps & _).
  set (w' := run_callback _ _) in *.
  cbn [with_timers workers timers promises] in Hws, Hts, Hps.
  assert (Hlo : ∀ j, listener_of j w' = listener_of j w).
  { intros j. unfold listener_of. by rewrite Hws. }
  assert (Hmine : t' = t ∨ p'' = p → t' = t ∧ p'' = p).
  { intros Hor.
    destruct (inv_timers _ _ _ _ _ HI t' _ Htm) as [Ht Heq].
    { destruct Hor as [?| ->]; [by left|by right]. }
    injection Heq as _ ->. done. }
  apply (Inv_preserved osw t p d w).
  - done.
  - intros j l. by rewrite Hlo.
  - intros t'' tm. rewrite Hts. by intros [_ ?]%lookup_delete_Some.
  - intros j. by rewrite Hws.
  - rewrite Hps. case_goal Hd; [eauto|]. by destruct HI.
  - rewrite Hps. case_goal Hd; [done|]. intros Hpe.
    assert (p ≠ p'') as Hpp by (intros ->; by apply Hd).
    assert (t' ≠ t) as Htt by (intros ->; destruct Hmine as [_ ?]; auto).
    split_and!; [done| |].
    + rewrite Hts. by apply lookup_delete_ne.
    + intros sw _. apply Hlo.
  - rewrite Hps. case_goal Hd; [done|auto].
  - intros Hpe. rewrite Hps. case_goal Hd; [|auto]. right.
    destruct Hd as [<- _]. destruct Hmine as [-> _]; [auto|].
    rewrite Hts. apply lookup_delete_eq.
Qed.

Lemma Inv_step osw t p d w ev :
  Inv osw t p d w → Inv osw t p d (step ev w).
Proof.
  intros HI. destruct ev as [ms|t'|sw s|sw target].
  - destruct HI. by split.
  - by apply Inv_timer_fires.
  - cbn [step]. by apply Inv_dispatch, Inv_set_state.
  - cbn [step]. by apply Inv_dispatch.
Qed.

Lemma run_cons ev evs w : run (ev :: evs) w = run evs (step ev w).
Proof. reflexivity. Qed.

Lemma Inv_run osw t p d evs w :
  Inv osw t p d w → Inv osw t p d (run evs w).
Proof.
  revert w. induction evs as [|ev evs IH]; intros w HI; [done|].
  rewrite run_cons. apply IH. by apply Inv_step.
Qed.


(** ** One event, field by field *)

Lemma dispatch_cases i target w :
  dispatch i target w = w
  ∨ ∃ sw' t' p',
      listener_of i w = Some (OnStateChange sw' t' p')
      ∧ target_state target w = Some "activated"
      ∧ dispatch i target w = run_listener (OnStateChange sw' t' p') (Some "activated") w.
Proof.
  unfold dispatch. destruct (listener_of i w) as [[sw' t' p']|]; [|by left].
 
  destruct (decide (target_state target w = Some "activated")) as [Hact|Hact].
  - right. exists sw', t', p'. by rewrite Hact.
  - left. by apply run_listener_other.
Qed.

Lemma timer_fires_cases t' w :
  step (TimerFires t') w = w
  ∨ ∃ dl p',
      timers w !! t' = Some {| deadline := dl; callback := RejectAfterTimeout p' |}
      ∧ (dl ≤ clock w)%N
      ∧ step (TimerFires t') w =
          run_callback (RejectAfterTimeout p') (with_timers (delete t' (timers w)) w).
Proof.
  unfold step. destruct (timers w !! t') as [[dl [p']]|]; [|by left].
  cbn [deadline callback]. destruct (decide (dl ≤ clock w)%N); [|by left].
  right. by exists dl, p'.
Qed.

Lemma step_promise_cases ev w q :
  promises (step ev w) !! q = promises w !! q
  ∨ promises w !! q = Some Pending
    ∧ (promises (step ev w) !! q = Some Fulfilled
       ∨ promises (step ev w) !! q = Some (Rejected (ErrorObj timeout_message))).
Proof.
  assert (Hd : ∀ i target w0,
    promises (dispatch i target w0) !! q = promises w0 !! q
    ∨ promises w0 !! q = Some Pending ∧ promises (dispatch i target w0) !! q = Some Fulfilled).
  { intros i target w0.
    destruct (dispatch_cases i target w0) as [->|(sw' & t' & p' & _ & _ & ->)]; [by left|].
    destruct (run_listener_activated sw' t' p' _ w0 eq_refl) as (_ & _ & _ & -> & _).
    case_goal Hq; [|by left]. destruct Hq as [-> ?]. by right. }
  destruct ev as [ms|t'|sw s|sw target].
  - by left.
  - destruct (timer_fires_cases t' w) as [->|(dl & p' & _ & _ & ->)]; [by left|].
    destruct (run_callback_spec p' (with_timers (delete t' (timers w)) w))
      as (_ & _ & _ & -> & _).
    cbn [with_timers promises].
    case_goal Hq; [|by left]. destruct Hq as [-> ?]. right. auto.
  - cbn [step]. destruct (Hd sw (Some sw) (set_state sw s w)) as [?|[? ?]]; [by left|].
    right. auto.
  - cbn [step]. destruct (Hd sw target w) as [?|[? ?]]; [by left|]. right. auto.
Qed.

Lemma step_settled ev w q :
  promises w !! q ≠ Some Pending → promises (step ev w) !! q = promises w !! q.
Proof. intros Hq. by destruct (step_promise_cases ev w q) as [?|[? _]]. Qed.

Lemma run_settled evs w q :
  promises w !! q ≠ Some Pending → promises (run evs w) !! q = promises w !! q.
Proof.
  revert w. induction evs as [|ev evs IH]; intros w Hq; [done|].
  rewrite run_cons, IH; rewrite step_settled; done.
Qed.

Lemma step_timers ev w t' tm :
  timers (step ev w) !! t' = Some tm → timers w !! t' = Some tm.
Proof.
  assert (Hd : ∀ i target w0,
    timers (dispatch i target w0) !! t' = Some tm → timers w0 !! t' = Some tm).
  { intros i target w0.
    destruct (dispatch_cases i target w0) as [->|(sw' & t'' & p' & _ & _ & ->)]; [done|].
    destruct (run_listener_activated sw' t'' p' _ w0 eq_refl) as (_ & _ & -> & _).
    by intros [_ ?]%lookup_delete_Some. }
  destruct ev as [ms|t''|sw s|sw target];
    [done| |intros H; apply Hd in H; exact H..].
  destruct (timer_fires_cases t'' w) as [->|(dl & p' & _ & _ & ->)]; [done|].
  destruct (run_callback_spec p' (with_timers (delete t'' (timers w)) w))
    as (_ & _ & -> & _).
  cbn [with_timers timers]. by intros [_ ?]%lookup_delete_Some.
Qed.

Lemma run_timers evs w t' :
  timers w !! t' = None → timers (run evs w) !! t' = None.
Proof.
  revert w. induction evs as [|ev evs IH]; intros w Hn; [done|].
  rewrite run_cons. apply IH.
  destruct (timers (step ev w) !! t') as [tm|] eqn:Htm; [|done].
  apply step_timers in Htm. congruence.
Qed.

Lemma step_journal ev w :
  ∃ added, journal (step ev w) = journal w ++ added ∧ Forall closure_action added.
Proof.
  assert (Hd : ∀ i target w0, ∃ added,
    journal (dispatch i target w0) = journal w0 ++ added ∧ Forall closure_action added).
  { intros i target w0.
    destruct (dispatch_cases i target w0) as [->|(sw' & t'' & p' & _ & _ & ->)].
    - exists []. by rewrite app_nil_r.
    - destruct (run_listener_activated sw' t'' p' _ w0 eq_refl) as (_ & _ & _ & _ & _ & _ & ->).
      eexists; split; [done|]. repeat constructor. }
  destruct ev as [ms|t''|sw s|sw target];
    [| |apply (Hd sw (Some sw) (set_state sw s w))|apply Hd].
  - exists []. by rewrite app_nil_r.
  - destruct (timer_fires_cases t'' w) as [->|(dl & p' & _ & _ & ->)].
    + exists []. by rewrite app_nil_r.
    + destruct (run_callback_spec p' (with_timers (delete t'' (timers w)) w))
        as (_ & _ & _ & _ & _ & _ & ->).
      eexists; split; [done|]. repeat constructor.
Qed.

Lemma run_journal evs w :
  ∃ added, journal (run evs w) = journal w ++ added ∧ Forall closure_action added.
Proof.
  revert w. induction evs as [|ev evs IH]; intros w.
  - exists []. by rewrite app_nil_r.
  - rewrite run_cons. destruct (IH (step ev w)) as (a2 & -> & H2).
    destruct (step_journal ev w) as (a1 & -> & H1).
    exists (a1 ++ a2). rewrite app_assoc. split; [done|]. by apply Forall_app.
Qed.

Lemma dispatch_workers i target w sw :
  is_Some (workers (dispatch i target w) !! sw) ↔ is_Some (workers w !! sw).
Proof.
  destruct (dispatch_cases i target w) as [->|(sw' & t' & p' & _ & _ & ->)]; [done|].
  destruct (run_listener_activated sw' t' p' _ w eq_refl) as (_ & -> & _).
  apply is_Some_workers_alter.
Qed.

Lemma timer_fires_workers t' w : workers (step (TimerFires t') w) = workers w.
Proof.
  destruct (timer_fires_cases t' w) as [->|(dl & p' & _ & _ & ->)]; [done|].
  by destruct (run_callback_spec p' (with_timers (delete t' (timers w)) w))
    as (_ & -> & _).
Qed.

Lemma step_workers ev w sw :
  is_Some (workers (step ev w) !! sw) ↔ is_Some (workers w !! sw).
Proof.
  destruct ev as [ms|t'|sw0 s|sw0 target].
  - done.
  - by rewrite timer_fires_workers.
  - cbn [step]. rewrite dispatch_workers. unfold set_state; simpl.
    apply is_Some_workers_alter.
  - cbn [step]. apply dispatch_workers.
Qed.

Lemma run_workers evs w sw :
  is_Some (workers (run evs w) !! sw) ↔ is_Some (workers w !! sw).
Proof.
  revert w. induction evs as [|ev evs IH]; intros w; [done|].
  by rewrite run_cons, IH, step_workers.
Qed.

Lemma dispatch_promise_cases i target w q :
  promises (dispatch i target w) !! q = promises w !! q
  ∨ promises w !! q = Some Pending ∧ promises (dispatch i target w) !! q = Some Fulfilled
    ∧ ∃ sw' t', listener_of i w = Some (OnStateChange sw' t' q).
Proof.
  destruct (dispatch_cases i target w) as [->|(sw' & t' & p' & Hl & _ & ->)]; [by left|].
  destruct (run_listener_activated sw' t' p' _ w eq_refl) as (_ & _ & _ & -> & _).
  case_goal Hq; [|by left]. destruct Hq as [-> ?]. right. eauto.
Qed.

Lemma closure_action_not_attaches added :
  Forall closure_action added → Forall (λ a, ¬ attaches a) added.
Proof.
  intros H. eapply Forall_impl; [exact H|].
  intros a Ha. destruct a as [| | | | | | | | |? [?|]|]; simpl in *; tauto.
Qed.


(** ** Well-formed pages stay well-formed *)

Lemma World_ok_intro w :
  (∀ i sw' t' p', listener_of i w = Some (OnStateChange sw' t' p') →
     sw' = i ∧ t' < next_timer w ∧ p' < next_promise w) →
  (∀ t' tm, timers w !! t' = Some tm →
     t' < next_timer w ∧ ∀ p', callback tm = RejectAfterTimeout p' → p' < next_promise w) →
  World_ok w.
Proof.
  intros Hl Ht. split.
  - intros i o Ho. destruct (onstatechange o) as [[sw' t' p']|] eqn:Hon; [|done].
    apply Hl. unfold listener_of. by rewrite Ho.
  - intros t' tm Htm. destruct (Ht t' tm Htm) as [Hlt Hcb]. split; [done|].
    destruct (callback tm) as [p']. by apply Hcb.
Qed.

Lemma step_counters ev w :
  next_timer (step ev w) = next_timer w ∧ next_promise (step ev w) = next_promise w.
Proof.
  assert (Hd : ∀ i target w0,
    next_timer (dispatch i target w0) = next_timer w0
    ∧ next_promise (dispatch i target w0) = next_promise w0).
  { intros i target w0.
    destruct (dispatch_cases i target w0) as [->|(sw' & t' & p' & _ & _ & ->)]; [done|].
    by destruct (run_listener_activated sw' t' p' _ w0 eq_refl) as (_ & _ & _ & _ & -> & -> & _). }
  destruct ev as [ms|t'|sw s|sw target];
    [done| |apply (Hd sw (Some sw) (set_state sw s w))|apply Hd].
  destruct (timer_fires_cases t' w) as [->|(dl & p' & _ & _ & ->)]; [done|].
  by destruct (run_callback_spec p' (with_timers (delete t' (timers w)) w))
    as (_ & _ & _ & _ & -> & -> & _).
Qed.

Lemma step_listeners ev w j l :
  listener_of j (step ev w) = Some l → listener_of j w = Some l.
Proof.
  assert (Hd : ∀ i target w0,
    listener_of j (dispatch i target w0) = Some l → listener_of j w0 = Some l).
  { intros i target w0.
    destruct (dispatch_cases i target w0) as [->|(sw' & t' & p' & _ & _ & ->)]; [done|].
    destruct (run_listener_activated sw' t' p' _ w0 eq_refl) as (_ & Hws & _).
    unfold listener_of. rewrite Hws, lookup_alter.
    case_goal Hj; [subst|done]. by destruct (workers w0 !! j). }
  destruct ev as [ms|t'|sw s|sw target].
  - done.
  - unfold listener_of. by rewrite timer_fires_workers.
  - cbn [step]. intros Hl. apply Hd in Hl. by rewrite listener_of_set_state in Hl.
  - apply Hd.
Qed.

Lemma World_ok_step ev w : World_ok w → World_ok (step ev w).
Proof.
  intros Hok. destruct (step_counters ev w) as [Ht Hp].
  apply World_ok_intro; rewrite Ht, Hp.
  - intros i sw' t' p' Hl. apply step_listeners in Hl.
    by apply (World_ok_listener w).
  - intros t' tm Htm. apply step_timers in Htm. by apply (World_ok_timer w).
Qed.

Lemma World_ok_run evs w : World_ok w → World_ok (run evs w).
Proof.
  revert w. induction evs as [|ev evs IH]; intros w Hok; [done|].
  rewrite run_cons. by apply IH, World_ok_step.
Qed.

Lemma World_ok_wait registration w :
  World_ok w → World_ok (waitForRegistrationActive registration w).2.
Proof.
  intros Hok.
  destruct (active registration) as [a|] eqn:Ha;
    [|destruct (or_else (installing registration) (waiting registration)) as [sw|] eqn:Hi].
  - destruct (wait_active registration w a Ha)
      as (w1 & -> & _ & Hws & Hts & _ & Hnt & Hnp & _). cbn [snd].
    apply World_ok_intro; rewrite Hnt, Hnp.
    + intros i sw' t' p'. unfold listener_of. rewrite Hws. intros Hl.
      destruct (World_ok_listener w i sw' t' p' Hok Hl) as (? & ? & ?). lia.
    + intros t' tm. rewrite Hts. intros [Hne Htm]%lookup_delete_Some.
      rewrite lookup_insert_ne in Htm by done.
      destruct (World_ok_timer w t' tm Hok Htm) as [? Hcb].
      split; [lia|]. intros p' Hp'. specialize (Hcb _ Hp'). lia.
  - destruct (wait_incoming registration w sw Ha Hi)
      as (w1 & -> & _ & Hws & Hts & _ & Hnt & Hnp & _). cbn [snd].
    apply World_ok_intro; rewrite Hnt, Hnp.
    + intros i sw' t' p'. unfold listener_of. rewrite Hws, lookup_alter.
      case_goal Hd.
      * subst i. destruct (workers w !! sw); simpl; [|done].
        intros [= <- <- <-]. lia.
      * intros Hl. destruct (World_ok_listener w i sw' t' p' Hok Hl) as (? & ? & ?). lia.
    + intros t' tm. rewrite Hts, lookup_insert. case_goal Hd.
      * subst t'. intros [= <-]. cbn [callback]. split; [lia|]. intros p' [= <-]. lia.
      * intros Htm. destruct (World_ok_timer w t' tm Hok Htm) as [? Hcb].
        split; [lia|]. intros p' Hp'. specialize (Hcb _ Hp'). lia.
  - destruct (wait_none registration w Ha Hi)
      as (w1 & -> & _ & Hws & Hts & _ & Hnt & Hnp & _). cbn [snd].
    apply World_ok_intro; rewrite Hnt, Hnp.
    + intros i sw' t' p'. unfold listener_of. rewrite Hws. intros Hl.
      destruct (World_ok_listener w i sw' t' p' Hok Hl) as (? & ? & ?). lia.
    + intros t' tm. rewrite Hts. intros [Hne Htm]%lookup_delete_Some.
      rewrite lookup_insert_ne in Htm by done.
      destruct (World_ok_timer w t' tm Hok Htm) as [? Hcb].
      split; [lia|]. intros p' Hp'. specialize (Hcb _ Hp'). lia.
Qed.

(** ** waitForRegistrationActive: the three branches *)

(** C2. When the registration's [active] slot is set at call time, the
    promise is fulfilled by the end of the call and the timer is cleared
    ([clearTimeout] is called and the timer is not armed); the only calls
    made are [setTimeout], [clearTimeout] and [resolve], so no worker is
    touched, whatever [installing] and [waiting] hold. Afterwards, no event
    changes the promise, re-arms the timer or assigns a listener. *)
Theorem active_registration_resolves_at_once registration w a p w1 :
  active registration = Some a →
  waitForRegistrationActive registration w = (p, w1) →
  promises w1 !! p = Some Fulfilled
  ∧ timers w1 !! next_timer w = None
  ∧ workers w1 = workers w
  ∧ journal w1 = journal w ++
      [NewPromise p;
       CallSetTimeout (next_timer w) DEFAULT_REGISTRATION_TIMEOUT;
       CallClearTimeout (next_timer w);
       CallResolve p]
  ∧ ∀ evs,
      promises (run evs w1) !! p = Some Fulfilled
      ∧ timers (run evs w1) !! next_timer w = None
      ∧ ∃ added, journal (run evs w1) = journal w1 ++ added
                 ∧ Forall (λ a, ¬ attaches a) added.
Proof.
  intros Ha Hcall.
  destruct (wait_active registration w a Ha)
    as (w1' & Heq & _ & Hws & Hts & Hps & _ & _ & Hj).
  rewrite Hcall in Heq. injection Heq as -> <-.
  assert (Hp : promises w1 !! next_promise w = Some Fulfilled)
    by (rewrite Hps; apply lookup_insert_eq).
  assert (Ht : timers w1 !! next_timer w = None)
    by (rewrite Hts; apply lookup_delete_eq).
  split_and!; try done.
  intros evs. split_and!.
  - rewrite run_settled; [done|]. by rewrite Hp.
  - by apply run_timers.
  - destruct (run_journal evs w1) as (added & -> & Hadded).
    exists added. split; [done|]. by apply closure_action_not_attaches.
Qed.

(** C3. When none of [active], [installing] and [waiting] is set at call
    time, the promise is rejected by the end of the call with the error
    "No incoming service worker found." and the timer is cleared; from
    then on no event changes the rejection or finds the timer armed. *)
Theorem no_worker_rejects_at_once registration w p w1 :
  active registration = None →
  installing registration = None →
  waiting registration = None →
  waitForRegistrationActive registration w = (p, w1) →
  promises w1 !! p = Some (Rejected (ErrorObj "No incoming service worker found."))
  ∧ timers w1 !! next_timer w = None
  ∧ workers w1 = workers w
  ∧ journal w1 = journal w ++
      [NewPromise p;
       CallSetTimeout (next_timer w) DEFAULT_REGISTRATION_TIMEOUT;
       CallClearTimeout (next_timer w);
       CallReject p (ErrorObj "No incoming service worker found.")]
  ∧ ∀ evs,
      promises (run evs w1) !! p =
        Some (Rejected (ErrorObj "No incoming service worker found."))
      ∧ timers (run evs w1) !! next_timer w = None.
Proof.
  intros Ha Hi Hw Hcall.
  assert (Hinc : or_else (installing registration) (waiting registration) = None)
    by (by rewrite Hi, Hw).
  destruct (wait_none registration w Ha Hinc)
    as (w1' & Heq & _ & Hws & Hts & Hps & _ & _ & Hj).
  rewrite Hcall in Heq. injection Heq as -> <-.
  assert (Hp : promises w1 !! next_promise w =
               Some (Rejected (ErrorObj no_incoming_message)))
    by (rewrite Hps; apply lookup_insert_eq).
  assert (Ht : timers w1 !! next_timer w = None)
    by (rewrite Hts; apply lookup_delete_eq).
  split_and!; try done.
  intros evs. split.
  - rewrite run_settled; [done|]. by rewrite Hp.
  - by apply run_timers.
Qed.


(** ** The observed worker *)

Lemma listener_fires sw t p target w :
  listener_of sw w = Some (OnStateChange sw t p) →
  target_state target w = Some "activated" →
  listener_of sw (dispatch sw target w) = None
  ∧ timers (dispatch sw target w) !! t = None
  ∧ journal (dispatch sw target w) = journal w ++
      [AssignOnStateChange sw None; CallClearTimeout t; CallResolve p]
  ∧ (promises w !! p = Some Pending →
       promises (dispatch sw target w) !! p = Some Fulfilled).
Proof.
  intros Hl Hact. unfold dispatch. rewrite Hl.
  destruct (run_listener_activated sw t p _ w Hact)
    as (_ & Hws & Hts & Hps & _ & _ & Hj).
  split_and!.
  - unfold listener_of. rewrite Hws, lookup_alter_eq.
    by destruct (workers w !! sw).
  - rewrite Hts. apply lookup_delete_eq.
  - done.
  - intros Hp. rewrite Hps. by rewrite decide_True.
Qed.

Lemma target_state_set_state sw s w :
  is_Some (workers w !! sw) →
  target_state (Some sw) (set_state sw s w) = Some s.
Proof.
  intros [o Ho]. unfold target_state, set_state. simpl.
  by rewrite lookup_alter_eq, Ho.
Qed.

Lemma dispatch_ignores sw target w :
  target_state target w ≠ Some "activated" → dispatch sw target w = w.
Proof.
  intros Hact. by destruct (dispatch_cases sw target w) as [?|(? & ? & ? & _ & ? & _)].
Qed.

Lemma dispatch_detaches osw t p d sw target w :
  Inv osw t p d w →
  target_state target w = Some "activated" →
  listener_of sw (dispatch sw target w) = None.
Proof.
  intros HI Hact. unfold dispatch.
  destruct (listener_of sw w) as [[sw' t' p']|] eqn:Hl; [|done].
  destruct (inv_listeners _ _ _ _ _ HI sw sw' t' p' Hl) as [-> _].
  destruct (run_listener_activated sw t' p' _ w Hact) as (_ & Hws & _).
  unfold listener_of. rewrite Hws, lookup_alter_eq. by destruct (workers w !! sw).
Qed.

Lemma disarmed_when_settled osw t p d w :
  Inv osw t p d w → promises w !! p ≠ Some Pending → timers w !! t = None.
Proof.
  intros HI Hs. destruct (timers w !! t) as [tm|] eqn:Htm; [|done].
  destruct Hs. apply (inv_armed_pending _ _ _ _ _ HI). by rewrite Htm.
Qed.

(** C4. The registration has no active worker and an incoming one, [sw];
    the call leaves its promise pending. From then on, whatever happened
    in between: as long as the promise is pending, the listener of the call
    sits on [sw]. A state-change event at [sw] whose state reads
    "activated" leaves [sw] without listener and the timer of the call
    disarmed; when it finds the listener of the call, that listener
    detaches itself, clears the timer and calls [resolve], in this order;
    and when it finds the promise pending, the promise is fulfilled. An
    event with any other state, or with no target, changes neither the
    promise nor the listener nor the timer, and no call is made. The event
    is either the worker's own state change or an event object handed to
    the listener. *)
Theorem activated_event_resolves registration w sw p w1 :
  World_ok w →
  active registration = None →
  or_else (installing registration) (waiting registration) = Some sw →
  is_Some (workers w !! sw) →
  waitForRegistrationActive registration w = (p, w1) →
  let t := next_timer w in
  promises w1 !! p = Some Pending
  ∧ ∀ evs,
      let w2 := run evs w1 in
      let activated_in (w3 : World) :=
        listener_of sw w3 = None
        ∧ timers w3 !! t = None
        ∧ (listener_of sw w2 = Some (OnStateChange sw t p) →
             journal w3 = journal w2 ++
               [AssignOnStateChange sw None; CallClearTimeout t; CallResolve p])
        ∧ (promises w2 !! p = Some Pending → promises w3 !! p = Some Fulfilled) in
      let unchanged_in (w3 : World) :=
        listener_of sw w3 = listener_of sw w2
        ∧ timers w3 = timers w2
        ∧ promises w3 = promises w2
        ∧ journal w3 = journal w2 in
      (promises w2 !! p = Some Pending →
         listener_of sw w2 = Some (OnStateChange sw t p))
      ∧ activated_in (step (StateChange sw "activated") w2)
      ∧ (∀ s, s ≠ "activated" → unchanged_in (step (StateChange sw s) w2))
      ∧ (∀ target, target_state target w2 = Some "activated" →
           activated_in (step (Deliver sw target) w2))
      ∧ (∀ target, target_state target w2 ≠ Some "activated" →
           unchanged_in (step (Deliver sw target) w2)).
Proof.
  intros Hok Ha Hi Hin Hcall t.
  assert (Hp : p = next_promise w).
  { pose proof (wait_promise registration w) as H. by rewrite Hcall in H. }
  assert (Hobs : observed registration = Some sw) by (unfold observed; by rewrite Ha).
  destruct (wait_incoming registration w sw Ha Hi) as (w1' & Heq & _ & Hws & _ & Hps & _).
  rewrite Hcall in Heq. injection Heq as _ <-.
  split; [by rewrite Hps, Hp, lookup_insert_eq|].
  intros evs w2 activated_in unchanged_in.
  pose proof (Inv_wait registration w Hok) as HI. rewrite Hcall in HI. cbn [snd] in HI.
  apply (Inv_run _ _ _ _ evs) in HI. fold w2 t in HI. rewrite <- Hp in HI.
  assert (Hin2 : is_Some (workers w2 !! sw)).
  { apply run_workers. by rewrite Hws, is_Some_workers_alter. }
  assert (Hatt : promises w2 !! p = Some Pending →
                 listener_of sw w2 = Some (OnStateChange sw t p))
    by apply (inv_pending_attached _ _ _ _ _ HI sw Hobs Hin2).
  assert (Hfire : ∀ target w',
    Inv (observed registration) t p (clock w + DEFAULT_REGISTRATION_TIMEOUT)%N w' →
    listener_of sw w' = listener_of sw w2 → timers w' = timers w2 →
    promises w' = promises w2 → journal w' = journal w2 →
    target_state target w' = Some "activated" →
    activated_in (dispatch sw target w')).
  { intros target w' HI' Hl' Ht' Hp' Hj' Hact. unfold activated_in. split_and!.
    - by apply (dispatch_detaches _ _ _ _ sw target w' HI').
    - destruct (decide (promises w2 !! p = Some Pending)) as [Hpend|Hs].
      + apply (listener_fires sw t p target w'); [|done].
        rewrite Hl'. by apply Hatt.
      + pose proof (disarmed_when_settled _ _ _ _ w' HI') as Hnone.
        rewrite Hp' in Hnone. specialize (Hnone Hs).
        destruct (timers (dispatch sw target w') !! t) as [tm|] eqn:Htm; [|done].
        apply (step_timers (Deliver sw target)) in Htm. congruence.
    - intros Hl2. rewrite <- Hj'. rewrite <- Hl' in Hl2.
      by destruct (listener_fires sw t p target w' Hl2 Hact) as (_ & _ & ? & _).
    - intros Hpend. rewrite <- Hp' in Hpend.
      assert (Hl2 : listener_of sw w' = Some (OnStateChange sw t p)).
      { rewrite Hl'. apply Hatt. by rewrite <- Hp'. }
      destruct (listener_fires sw t p target w' Hl2 Hact) as (_ & _ & _ & Hf).
      by apply Hf. }
  split_and!.
  - done.
  - cbn [step]. apply Hfire; try done.
    + by apply Inv_set_state.
    + apply listener_of_set_state.
    + by apply target_state_set_state.
  - intros s Hs. cbn [step]. unfold unchanged_in.
    rewrite dispatch_ignores.
    + by rewrite listener_of_set_state.
    + rewrite target_state_set_state by done. congruence.
  - intros target Hact. cbn [step]. by apply Hfire.
  - intros target Hact. cbn [step]. unfold unchanged_in. by rewrite dispatch_ignores.
Qed.

(** ** The timer *)

Lemma armed_while_pending osw t p d w :
  Inv osw t p d w →
  promises w !! p = Some Pending →
  timers w !! t = Some {| deadline := d; callback := RejectAfterTimeout p |}.
Proof.
  intros HI Hpend. destruct (inv_pending_armed _ _ _ _ _ HI Hpend) as [tm Htm].
  destruct (inv_timers _ _ _ _ _ HI t tm Htm) as [_ ->]; [by left|done].
Qed.

Lemma due_timer_rejects t p d w :
  timers w !! t = Some {| deadline := d; callback := RejectAfterTimeout p |} →
  promises w !! p = Some Pending →
  (d ≤ clock w)%N →
  promises (step (TimerFires t) w) !! p = Some (Rejected (ErrorObj timeout_message))
  ∧ timers (step (TimerFires t) w) !! t = None.
Proof.
  intros Ht Hpend Hdue. unfold step. rewrite Ht. cbn [deadline callback].
  rewrite decide_True by done.
  destruct (run_callback_spec p (with_timers (delete t (timers w)) w))
    as (_ & _ & -> & -> & _). cbn [with_timers timers promises].
  split; [by rewrite decide_True|apply lookup_delete_eq].
Qed.

(** C5. As long as the promise of a call is pending, the timer of the call
    is armed, due [DEFAULT_REGISTRATION_TIMEOUT] ms after the call. Before
    that instant the host cannot run it, and nothing else rejects the
    promise; once the instant is reached and the host runs the timer, the
    promise is rejected with an error whose message contains the duration
    in decimal. *)
Theorem timeout_rejects_with_duration registration w p w1 evs :
  World_ok w →
  waitForRegistrationActive registration w = (p, w1) →
  promises (run evs w1) !! p = Some Pending →
  let t := next_timer w in
  let w2 := run evs w1 in
  let due := (clock w + DEFAULT_REGISTRATION_TIMEOUT)%N in
  timers w2 !! t = Some {| deadline := due; callback := RejectAfterTimeout p |}
  ∧ ((clock w2 < due)%N → step (TimerFires t) w2 = w2)
  ∧ (∀ ev e, promises (step ev w2) !! p = Some (Rejected e) →
       ev = TimerFires t ∧ (due ≤ clock w2)%N ∧ e = ErrorObj timeout_message)
  ∧ ((due ≤ clock w2)%N →
       promises (step (TimerFires t) w2) !! p =
         Some (Rejected (ErrorObj timeout_message))
       ∧ timers (step (TimerFires t) w2) !! t = None)
  ∧ timeout_message =
      "Service worker not registered after " +:+
      pretty DEFAULT_REGISTRATION_TIMEOUT +:+ " ms"
  ∧ contains (pretty DEFAULT_REGISTRATION_TIMEOUT) timeout_message.
Proof.
  intros Hok Hcall Hpend t w2 due.
  change (promises w2 !! p = Some Pending) in Hpend.
  assert (Hp : p = next_promise w).
  { pose proof (wait_promise registration w) as H. by rewrite Hcall in H. }
  pose proof (Inv_wait registration w Hok) as HI. rewrite Hcall in HI. cbn [snd] in HI.
  apply (Inv_run _ _ _ _ evs) in HI. fold w2 t due in HI. rewrite <- Hp in HI.
  pose proof (armed_while_pending _ _ _ _ _ HI Hpend) as Ht.
  pose proof (due_timer_rejects t p due w2 Ht Hpend) as Hfire.
  split_and!.
  - done.
  - intros Hearly. unfold step. rewrite Ht. cbn [deadline].
    rewrite decide_False; [done|lia].
  - intros ev e He.
    destruct ev as [ms|t'|sw s|sw target].
    + cbn [step with_clock promises] in He. congruence.
    + destruct (timer_fires_cases t' w2) as [Hsame|(dl & p' & Htm & Hdl & Heq)].
      { rewrite Hsame in He. congruence. }
      rewrite Heq in He.
      destruct (run_callback_spec p' (with_timers (delete t' (timers w2)) w2))
        as (_ & _ & _ & Hps & _). rewrite Hps in He.
      cbn [with_timers promises] in He.
      destruct (decide (p = p' ∧ promises w2 !! p' = Some Pending)) as [[<- _]|]; [|congruence].
      destruct (inv_timers _ _ _ _ _ HI t' _ Htm) as [-> Hdue]; [by right|].
      injection Hdue as ->. injection He as <-. done.
    + cbn [step] in He.
      destruct (dispatch_promise_cases sw (Some sw) (set_state sw s w2) p)
        as [Hsame|(_ & Hf & _)]; [|congruence].
      rewrite Hsame in He. cbn [set_state with_workers promises] in He. congruence.
    + cbn [step] in He.
      destruct (dispatch_promise_cases sw target w2 p) as [Hsame|(_ & Hf & _)]; congruence.
  - done.
  - done.
  - by exists "Service worker not registered after ", " ms".
Qed.


(** ** Workers that are not observed *)

Lemma step_other_worker osw t p d w ev sw :
  Inv osw t p d w →
  event_worker ev = Some sw → osw ≠ Some sw →
  promises (step ev w) !! p = promises w !! p.
Proof.
  intros HI Hev Hsw.
  assert (Hd : ∀ target w0,
    (∀ q, promises w0 !! q = promises w !! q) →
    listener_of sw w0 = listener_of sw w →
    promises (dispatch sw target w0) !! p = promises w !! p).
  { intros target w0 Hps Hl.
    destruct (dispatch_promise_cases sw target w0 p) as [->|(_ & _ & sw' & t' & Hl')]; [done|].
    rewrite Hl in Hl'.
    destruct (inv_listeners _ _ _ _ _ HI sw sw' t' p Hl') as [_ [? _]]; [by right|done]. }
  destruct ev as [ms|t'|sw0 s|sw0 target]; try done; injection Hev as ->; cbn [step].
  - apply Hd; [done|apply listener_of_set_state].
  - by apply Hd.
Qed.

Lemma timer_fires_promise_cases t' w q :
  promises (step (TimerFires t') w) !! q = promises w !! q
  ∨ promises w !! q = Some Pending
    ∧ promises (step (TimerFires t') w) !! q = Some (Rejected (ErrorObj timeout_message)).
Proof.
  destruct (timer_fires_cases t' w) as [->|(dl & p' & _ & _ & ->)]; [by left|].
  destruct (run_callback_spec p' (with_timers (delete t' (timers w)) w))
    as (_ & _ & _ & -> & _).
  cbn [with_timers promises]. case_goal Hq; [|by left]. destruct Hq as [-> ?]. by right.
Qed.

Lemma step_not_observed osw t p d w ev :
  Inv osw t p d w →
  event_worker ev ≠ osw →
  promises w !! p ≠ Some Fulfilled →
  promises (step ev w) !! p ≠ Some Fulfilled.
Proof.
  intros HI Hev Hnf.
  destruct (event_worker ev) as [sw|] eqn:Hw.
  - rewrite (step_other_worker osw t p d w ev sw); [done..|congruence].
  - destruct ev as [ms|t'|?|?]; try done.
    destruct (timer_fires_promise_cases t' w p) as [->|[_ ->]]; done.
Qed.

(** C6. With an installing worker [i], a waiting worker [j] and no active
    one, the call puts its listener on [i] and leaves [j] as it was. A
    state change of [j] to "activated" leaves the promise pending, and so
    does any run of events at workers other than [i]; whatever else the
    host does, the promise is not fulfilled without an event at [i]. *)
Theorem only_installing_is_observed registration w i j p w1 :
  World_ok w →
  active registration = None →
  installing registration = Some i →
  waiting registration = Some j →
  i ≠ j →
  is_Some (workers w !! i) →
  waitForRegistrationActive registration w = (p, w1) →
  listener_of i w1 = Some (OnStateChange i (next_timer w) p)
  ∧ listener_of j w1 = listener_of j w
  ∧ promises w1 !! p = Some Pending
  ∧ promises (step (StateChange j "activated") w1) !! p = Some Pending
  ∧ (∀ evs, Forall (λ ev, ∃ sw, event_worker ev = Some sw ∧ sw ≠ i) evs →
            promises (run evs w1) !! p = Some Pending)
  ∧ (∀ evs, Forall (λ ev, event_worker ev ≠ Some i) evs →
            promises (run evs w1) !! p ≠ Some Fulfilled).
Proof.
  intros Hok Ha Hi Hj Hij Hin Hcall.
  assert (Hinc : or_else (installing registration) (waiting registration) = Some i)
    by (by rewrite Hi).
  assert (Hobs : observed registration = Some i) by (unfold observed; by rewrite Ha).
  pose proof (Inv_wait registration w Hok) as HI.
  rewrite Hcall, Hobs in HI. cbn [snd] in HI.
  destruct (wait_incoming registration w i Ha Hinc) as (w1' & Heq & _ & Hws & _ & Hps & _).
  rewrite Hcall in Heq. injection Heq as -> <-.
  assert (Hp1 : promises w1 !! next_promise w = Some Pending)
    by (rewrite Hps; apply lookup_insert_eq).
  assert (Hquiet : ∀ evs, Forall (λ ev, ∃ sw, event_worker ev = Some sw ∧ sw ≠ i) evs →
            promises (run evs w1) !! next_promise w = Some Pending).
  { intros evs. revert HI Hp1. generalize w1 as w0.
    induction evs as [|ev evs IH]; intros w0 HI Hp0 Hall; [done|].
    apply Forall_cons in Hall as [(sw & Hev & Hne) Hall].
    rewrite run_cons. apply IH; [by apply Inv_step| |done].
    rewrite (step_other_worker _ _ _ _ w0 ev sw HI Hev); [done|congruence]. }
  split_and!.
  - unfold listener_of. rewrite Hws, lookup_alter_eq. destruct Hin as [o ->]. done.
  - unfold listener_of. by rewrite Hws, lookup_alter_ne.
  - done.
  - apply (Hquiet [StateChange j "activated"]). repeat constructor. by exists j.
  - done.
  - intros evs. assert (Hnf : promises w1 !! next_promise w ≠ Some Fulfilled) by congruence.
    revert HI Hnf. generalize w1 as w0.
    induction evs as [|ev evs IH]; intros w0 HI Hnf Hall; [done|].
    apply Forall_cons in Hall as [Hev Hall].
    rewrite run_cons. apply IH; [by apply Inv_step| |done].
    by apply (step_not_observed _ _ _ _ w0 ev HI).
Qed.

(** ** Settling once *)

(** C7, as the code has it. After a call, whatever the host does: a
    settled promise never changes again; the timer of the call is armed
    exactly as long as the promise is pending, so it is gone after every
    settlement; a fulfilled promise has left no listener behind; and once
    the timeout has elapsed, the host running the timer leaves the promise
    settled. A timer that fires touches no worker: on that path the
    listener stays where it is. *)
Theorem settles_once_and_disarms registration w p w1 evs :
  World_ok w →
  waitForRegistrationActive registration w = (p, w1) →
  let t := next_timer w in
  let w2 := run evs w1 in
  is_Some (promises w2 !! p)
  ∧ (promises w2 !! p ≠ Some Pending →
       ∀ evs', promises (run evs' w2) !! p = promises w2 !! p)
  ∧ (is_Some (timers w2 !! t) ↔ promises w2 !! p = Some Pending)
  ∧ (promises w2 !! p = Some Fulfilled →
       ∀ sw sw' t', listener_of sw w2 ≠ Some (OnStateChange sw' t' p))
  ∧ ((clock w + DEFAULT_REGISTRATION_TIMEOUT ≤ clock w2)%N →
       promises (step (TimerFires t) w2) !! p ≠ Some Pending)
  ∧ (∀ t', workers (step (TimerFires t') w2) = workers w2).
Proof.
  intros Hok Hcall t w2.
  assert (Hp : p = next_promise w).
  { pose proof (wait_promise registration w) as H. by rewrite Hcall in H. }
  pose proof (Inv_wait registration w Hok) as HI. rewrite Hcall in HI. cbn [snd] in HI.
  apply (Inv_run _ _ _ _ evs) in HI. fold w2 t in HI. rewrite <- Hp in HI.
  split_and!.
  - by destruct HI.
  - intros Hs evs'. by apply run_settled.
  - split; [apply (inv_armed_pending _ _ _ _ _ HI)|apply (inv_pending_armed _ _ _ _ _ HI)].
  - intros Hf sw sw' t' Hl.
    destruct (inv_listeners _ _ _ _ _ HI sw sw' t' p Hl) as [_ [Hosw _]]; [by right|].
    rewrite (inv_fulfilled_detached _ _ _ _ _ HI sw Hosw Hf) in Hl. done.
  - intros Hdue.
    destruct (decide (promises w2 !! p = Some Pending)) as [Hpend|Hs].
    + pose proof (armed_while_pending _ _ _ _ _ HI Hpend) as Ht.
      destruct (due_timer_rejects t p _ w2 Ht Hpend Hdue) as [-> _]. done.
    + by rewrite step_settled.
  - intros t'. apply timer_fires_workers.
Qed.


(** ** registerDefaultSw *)

Lemma update_swallowed (s : Settlement unit) w :
  discard (promise_catch s (λ _, Resolves ())) w = w.
Proof. by destruct s. Qed.

Lemma at_wait_journal host r w :
  journal (at_wait host r w) = journal w ++
    [CallRegister DEFAULT_SW_PATH DEFAULT_SW_SCOPE;
     WriteField "swRegistration" (VRegistration r);
     ReadField "swRegistration";
     CallUpdate r;
     ReadField "swRegistration"].
Proof.
  unfold at_wait. rewrite update_swallowed. unfold record; simpl.
  by rewrite <- !app_assoc.
Qed.

Lemma registerDefaultSw_resolves host messaging w r :
  register host DEFAULT_SW_PATH DEFAULT_SW_SCOPE = Resolves r →
  registerDefaultSw host messaging w =
    let pw := waitForRegistrationActive r (at_wait host r w) in
    let sw := await pw.1 (schedule host) pw.2 in
    (surfaces sw.1, <["swRegistration" := VRegistration r]> messaging, sw.2).
Proof.
  intros Hr. unfold registerDefaultSw, try_block, set_field, get_field. rewrite Hr.
  rewrite lookup_insert_eq. fold (at_wait host r w).
  destruct (waitForRegistrationActive r (at_wait host r w)) as [p w1].
  cbv zeta. cbn [fst snd].
  by destruct (await p (schedule host) w1) as [[| |e] w2].
Qed.

Lemma registerDefaultSw_rejects host messaging w e :
  register host DEFAULT_SW_PATH DEFAULT_SW_SCOPE = Rejects e →
  registerDefaultSw host messaging w =
    (Threw (FirebaseError FAILED_DEFAULT_REGISTRATION (message_of e)), messaging,
     record (CallRegister DEFAULT_SW_PATH DEFAULT_SW_SCOPE) w).
Proof. intros Hr. unfold registerDefaultSw, try_block. by rewrite Hr. Qed.

Lemma registerDefaultSw_hangs host messaging w :
  register host DEFAULT_SW_PATH DEFAULT_SW_SCOPE = NeverSettles →
  registerDefaultSw host messaging w =
    (StillAwaiting, messaging, record (CallRegister DEFAULT_SW_PATH DEFAULT_SW_SCOPE) w).
Proof. intros Hr. unfold registerDefaultSw, try_block. by rewrite Hr. Qed.

(** [await] stops at the first settlement. *)
Lemma await_prefix p evs w :
  ∃ evs1 evs2, evs = evs1 ++ evs2 ∧ (await p evs w).2 = run evs1 w
               ∧ (await p evs w).1 = promise_state p (run evs1 w).
Proof.
  revert w. induction evs as [|ev evs IH]; intros w.
  - exists [], []. cbn [await]. by destruct (promise_state p w) eqn:Hs.
  - cbn [await]. destruct (promise_state p w) eqn:Hs.
    + destruct (IH (step ev w)) as (evs1 & evs2 & -> & H1 & H2).
      by exists (ev :: evs1), evs2.
    + by exists [], (ev :: evs).
    + by exists [], (ev :: evs).
Qed.

Lemma wait_journal r w :
  ∃ added, journal (waitForRegistrationActive r w).2 = journal w ++ added
           ∧ Forall wait_action added.
Proof.
  destruct (active r) as [a|] eqn:Ha;
    [|destruct (or_else (installing r) (waiting r)) as [sw|] eqn:Hi].
  - destruct (wait_active r w a Ha) as (w1 & -> & _ & _ & _ & _ & _ & _ & Hj).
    cbn [snd]. rewrite Hj. eexists; split; [done|]. repeat constructor.
  - destruct (wait_incoming r w sw Ha Hi) as (w1 & -> & _ & _ & _ & _ & _ & _ & Hj).
    cbn [snd]. rewrite Hj. eexists; split; [done|]. repeat constructor.
  - destruct (wait_none r w Ha Hi) as (w1 & -> & _ & _ & _ & _ & _ & _ & Hj).
    cbn [snd]. rewrite Hj. eexists; split; [done|]. repeat constructor.
Qed.

Lemma closure_action_wait_action added :
  Forall closure_action added → Forall wait_action added.
Proof.
  intros H. eapply Forall_impl; [exact H|].
  intros a Ha. destruct a as [| | | | | | | | |? [?|]|]; simpl in *; tauto.
Qed.

(** The journal of a whole call when the host answers [register]. *)
Lemma registerDefaultSw_journal host messaging w r :
  register host DEFAULT_SW_PATH DEFAULT_SW_SCOPE = Resolves r →
  ∃ rest, journal (registerDefaultSw host messaging w).2 = journal w ++
      [CallRegister DEFAULT_SW_PATH DEFAULT_SW_SCOPE;
       WriteField "swRegistration" (VRegistration r);
       ReadField "swRegistration";
       CallUpdate r;
       ReadField "swRegistration"] ++ rest
    ∧ Forall wait_action rest.
Proof.
  intros Hr. rewrite (registerDefaultSw_resolves _ _ _ _ Hr). cbv zeta. cbn [snd].
  destruct (wait_journal r (at_wait host r w)) as (a1 & H1 & Hf1).
  destruct (waitForRegistrationActive r (at_wait host r w)) as [p w1]. cbn [fst snd] in *.
  destruct (await_prefix p (schedule host) w1) as (evs1 & _ & _ & -> & _).
  destruct (run_journal evs1 w1) as (a2 & -> & Hf2).
  rewrite H1, at_wait_journal. exists (a1 ++ a2).
  rewrite <- !app_assoc. split; [done|].
  apply Forall_app. split; [done|]. by apply closure_action_wait_action.
Qed.

(** What the awaited promise can be rejected with. *)
Lemma wait_rejected r w evs e :
  let pw := waitForRegistrationActive r w in
  (await pw.1 evs pw.2).1 = Rejected e → wait_reason e.
Proof.
  cbv zeta. rewrite wait_promise.
  assert (H1 : ∀ e', promises (waitForRegistrationActive r w).2 !! next_promise w
                     = Some (Rejected e') → wait_reason e').
  { intros e'.
    destruct (active r) as [a|] eqn:Ha;
      [|destruct (or_else (installing r) (waiting r)) as [sw|] eqn:Hi].
    - destruct (wait_active r w a Ha) as (w1 & -> & _ & _ & _ & Hps & _).
      cbn [snd]. rewrite Hps. by rewrite lookup_insert_eq.
    - destruct (wait_incoming r w sw Ha Hi) as (w1 & -> & _ & _ & _ & Hps & _).
      cbn [snd]. rewrite Hps. by rewrite lookup_insert_eq.
    - destruct (wait_none r w Ha Hi) as (w1 & -> & _ & _ & _ & Hps & _).
      cbn [snd]. rewrite Hps. rewrite lookup_insert_eq. intros [= <-]. by right. }
  destruct (await_prefix (next_promise w) evs (waitForRegistrationActive r w).2)
    as (evs1 & _ & _ & _ & ->).
  revert H1. generalize (waitForRegistrationActive r w).2 as w1. clear.
  induction evs1 as [|ev evs1 IH]; intros w1 H1.
  - unfold promise_state. cbn [run foldl].
    destruct (promises w1 !! next_promise w) as [s|] eqn:Hs; [|done].
    simpl. intros ->. by apply H1.
  - rewrite run_cons. apply IH. intros e' He'.
    destruct (step_promise_cases ev w1 (next_promise w)) as [Hsame|[_ [Hf|Hr]]].
    + apply H1. congruence.
    + congruence.
    + rewrite Hr in He'. injection He' as <-. by left.
Qed.


Lemma wait_action_not_registers rest :
  Forall wait_action rest → Forall (λ a, ¬ registers a) rest.
Proof.
  intros H. eapply Forall_impl; [exact H|].
  intros a Ha. destruct a; simpl in *; tauto.
Qed.

Lemma wait_action_not_context_access rest :
  Forall wait_action rest → Forall (λ a, ¬ context_access a) rest.
Proof.
  intros H. eapply Forall_impl; [exact H|].
  intros a Ha. destruct a; simpl in *; tauto.
Qed.

(** C1. Whenever the host rejects the registration request, or answers it
    and the awaited activation promise is rejected (which it is only with
    the timeout error or the "no incoming worker" error),
    [registerDefaultSw] throws the error built for
    [FAILED_DEFAULT_REGISTRATION] with the [message] of what was caught as
    [browserErrorMessage]. Nothing else is ever thrown, and [register] is
    called exactly once, first of all. *)
Theorem failures_surface_as_failed_default_registration host messaging w :
  (∀ e, register host DEFAULT_SW_PATH DEFAULT_SW_SCOPE = Rejects e →
     (registerDefaultSw host messaging w).1.1 =
       Threw (FirebaseError FAILED_DEFAULT_REGISTRATION (message_of e)))
  ∧ (∀ r e, register host DEFAULT_SW_PATH DEFAULT_SW_SCOPE = Resolves r →
       let pw := waitForRegistrationActive r (at_wait host r w) in
       (await pw.1 (schedule host) pw.2).1 = Rejected e →
       wait_reason e
       ∧ (registerDefaultSw host messaging w).1.1 =
           Threw (FirebaseError FAILED_DEFAULT_REGISTRATION (message_of e)))
  ∧ (∀ x, (registerDefaultSw host messaging w).1.1 = Threw x →
       ∃ msg, x = FirebaseError FAILED_DEFAULT_REGISTRATION msg)
  ∧ ∃ rest,
      journal (registerDefaultSw host messaging w).2 =
        journal w ++ CallRegister DEFAULT_SW_PATH DEFAULT_SW_SCOPE :: rest
      ∧ Forall (λ a, ¬ registers a) rest.
Proof.
  split_and!.
  - intros e He. by rewrite (registerDefaultSw_rejects _ _ _ _ He).
  - intros r e Hr pw Hrej. split.
    + by apply (wait_rejected r (at_wait host r w) (schedule host)).
    + rewrite (registerDefaultSw_resolves _ _ _ _ Hr). cbv zeta. cbn [fst].
      fold pw. by rewrite Hrej.
  - intros x.
    destruct (register host DEFAULT_SW_PATH DEFAULT_SW_SCOPE) as [r|e|] eqn:Hr.
    + rewrite (registerDefaultSw_resolves _ _ _ _ Hr). cbv zeta. cbn [fst].
      destruct (await _ _ _).1; simpl; [done|done|]. intros [= <-]. eauto.
    + rewrite (registerDefaultSw_rejects _ _ _ _ Hr). cbn [fst]. intros [= <-]. eauto.
    + by rewrite (registerDefaultSw_hangs _ _ _ Hr).
  - destruct (register host DEFAULT_SW_PATH DEFAULT_SW_SCOPE) as [r|e|] eqn:Hr.
    + destruct (registerDefaultSw_journal host messaging w r Hr) as (rest & -> & Hrest).
      eexists. split; [done|].
      repeat (apply Forall_cons; split; [by auto|]).
      by apply wait_action_not_registers.
    + rewrite (registerDefaultSw_rejects _ _ _ _ Hr). by exists [].
    + rewrite (registerDefaultSw_hangs _ _ _ Hr). by exists [].
Qed.

(** C8. However the host settles the [update] request, the call goes the
    same way: same outcome, same context, same page. No rejection is left
    without a handler. In particular, when the host answers [register],
    rejects [update], and the awaited promise is fulfilled, the call
    returns normally. *)
Theorem update_outcome_is_discarded host u messaging w :
  registerDefaultSw (with_update u host) messaging w = registerDefaultSw host messaging w
  ∧ (∀ e, UnhandledRejection e ∈ journal (registerDefaultSw host messaging w).2 →
          UnhandledRejection e ∈ journal w)
  ∧ (∀ r e, register host DEFAULT_SW_PATH DEFAULT_SW_SCOPE = Resolves r →
       update host r = Rejects e →
       let pw := waitForRegistrationActive r (at_wait host r w) in
       (await pw.1 (schedule host) pw.2).1 = Fulfilled →
       (registerDefaultSw host messaging w).1.1 = Returned).
Proof.
  split_and!.
  - unfold registerDefaultSw, try_block, set_field, get_field, with_update.
    cbn [register update schedule type_error].
    destruct (register host DEFAULT_SW_PATH DEFAULT_SW_SCOPE) as [r|e|]; [|done..].
    rewrite lookup_insert_eq. by rewrite !update_swallowed.
  - intros e.
    destruct (register host DEFAULT_SW_PATH DEFAULT_SW_SCOPE) as [r|e'|] eqn:Hr.
    + destruct (registerDefaultSw_journal host messaging w r Hr) as (rest & -> & Hrest).
      rewrite !elem_of_app, !elem_of_cons. intros [?|[Hin|Hin]]; [done| |].
      * destruct Hin as [?|[?|[?|[?|[?|Hin]]]]]; try done. by apply elem_of_nil in Hin.
      * rewrite Forall_forall in Hrest. by apply Hrest in Hin.
    + rewrite (registerDefaultSw_rejects _ _ _ _ Hr). cbn [snd record journal].
      rewrite elem_of_app, list_elem_of_singleton. by intros [?|?].
    + rewrite (registerDefaultSw_hangs _ _ _ Hr). cbn [snd record journal].
      rewrite elem_of_app, list_elem_of_singleton. by intros [?|?].
  - intros r e Hr _ pw Hf.
    rewrite (registerDefaultSw_resolves _ _ _ _ Hr). cbv zeta. cbn [fst].
    fold pw. by rewrite Hf.
Qed.

(** C9, as the code has it. When the host answers [register] with [r], the
    call writes [swRegistration := r] and then reads that field back twice,
    to issue [update] and to start the wait; these are all its accesses to
    the context, the write comes before both, and every other field is as
    before. What the context held at the start is never read: the outcome
    and the page are the same for any two contexts. When the host does not
    answer, the context is not accessed at all. *)
Theorem context_written_once_then_read_back host messaging w :
  (∀ r, register host DEFAULT_SW_PATH DEFAULT_SW_SCOPE = Resolves r →
     (registerDefaultSw host messaging w).1.2 =
       <["swRegistration" := VRegistration r]> messaging
     ∧ (∀ f, f ≠ "swRegistration" →
          (registerDefaultSw host messaging w).1.2 !! f = messaging !! f)
     ∧ ∃ rest,
         journal (registerDefaultSw host messaging w).2 = journal w ++
           [CallRegister DEFAULT_SW_PATH DEFAULT_SW_SCOPE;
            WriteField "swRegistration" (VRegistration r);
            ReadField "swRegistration";
            CallUpdate r;
            ReadField "swRegistration"] ++ rest
         ∧ Forall wait_action rest
         ∧ Forall (λ a, ¬ context_access a) rest)
  ∧ (∀ messaging2,
       (registerDefaultSw host messaging2 w).1.1 = (registerDefaultSw host messaging w).1.1
       ∧ (registerDefaultSw host messaging2 w).2 = (registerDefaultSw host messaging w).2)
  ∧ ((∀ r, register host DEFAULT_SW_PATH DEFAULT_SW_SCOPE ≠ Resolves r) →
       (registerDefaultSw host messaging w).1.2 = messaging
       ∧ journal (registerDefaultSw host messaging w).2 =
           journal w ++ [CallRegister DEFAULT_SW_PATH DEFAULT_SW_SCOPE]).
Proof.
  split_and!.
  - intros r Hr. split_and!.
    + by rewrite (registerDefaultSw_resolves _ _ _ _ Hr).
    + intros f Hf. rewrite (registerDefaultSw_resolves _ _ _ _ Hr). cbv zeta. cbn [fst snd].
      by rewrite lookup_insert_ne.
    + destruct (registerDefaultSw_journal host messaging w r Hr) as (rest & -> & Hrest).
      exists rest. split_and!; [done..|]. by apply wait_action_not_context_access.
  - intros messaging2.
    destruct (register host DEFAULT_SW_PATH DEFAULT_SW_SCOPE) as [r|e|] eqn:Hr.
    + by rewrite !(registerDefaultSw_resolves _ _ _ _ Hr).
    + by rewrite !(registerDefaultSw_rejects _ _ _ _ Hr).
    + by rewrite !(registerDefaultSw_hangs _ _ _ Hr).
  - intros Hno.
    destruct (register host DEFAULT_SW_PATH DEFAULT_SW_SCOPE) as [r|e|] eqn:Hr.
    + by destruct (Hno r).
    + by rewrite (registerDefaultSw_rejects _ _ _ _ Hr).
    + by rewrite (registerDefaultSw_hangs _ _ _ Hr).
Qed.

(** C10. When the host answers [register] with [r] and the call throws, it
    throws the [FAILED_DEFAULT_REGISTRATION] error with the message of the
    timeout or of the missing incoming worker, and the context still has
    [swRegistration = r]: the assignment is not undone. *)
Theorem failed_wait_keeps_registration host messaging w r x :
  register host DEFAULT_SW_PATH DEFAULT_SW_SCOPE = Resolves r →
  (registerDefaultSw host messaging w).1.1 = Threw x →
  (x = FirebaseError FAILED_DEFAULT_REGISTRATION (Some timeout_message)
   ∨ x = FirebaseError FAILED_DEFAULT_REGISTRATION (Some no_incoming_message))
  ∧ (registerDefaultSw host messaging w).1.2 !! "swRegistration" = Some (VRegistration r)
  ∧ (registerDefaultSw host messaging w).1.2 =
      <["swRegistration" := VRegistration r]> messaging.
Proof.
  intros Hr. rewrite (registerDefaultSw_resolves _ _ _ _ Hr). cbv zeta. cbn [fst snd].
  intros Hx. split_and!; [|apply lookup_insert_eq|done].
  pose proof (wait_rejected r (at_wait host r w) (schedule host)) as Hrej.
  cbv zeta in Hrej.
  destruct (await _ _ _).1 as [| |e]; simpl in Hx; [done|done|].
  injection Hx as <-. destruct (Hrej e eq_refl) as [->| ->]; auto.
Qed.

(** ** Whole calls of registerDefaultSw *)

Lemma at_wait_frame host r w :
  clock (at_wait host r w) = clock w
  ∧ workers (at_wait host r w) = workers w
  ∧ timers (at_wait host r w) = timers w
  ∧ next_timer (at_wait host r w) = next_timer w
  ∧ next_promise (at_wait host r w) = next_promise w
  ∧ promises (at_wait host r w) = promises w.
Proof. unfold at_wait. by rewrite update_swallowed. Qed.

Lemma World_ok_at_wait host r w : World_ok w → World_ok (at_wait host r w).
Proof.
  intros Hok. destruct (at_wait_frame host r w) as (_ & Hw & Ht & Hnt & Hnp & _).
  apply World_ok_intro; rewrite Hnt, Hnp.
  - intros i sw' t' p'. unfold listener_of. rewrite Hw.
    by apply (World_ok_listener w).
  - intros t' tm. rewrite Ht. by apply World_ok_timer.
Qed.

Lemma promise_state_Some p w s :
  promises w !! p = Some s → promise_state p w = s.
Proof. unfold promise_state. by intros ->. Qed.

Lemma promise_state_settled p w s :
  promise_state p w = s → s ≠ Pending → promises w !! p = Some s.
Proof.
  unfold promise_state. destruct (promises w !! p) as [s'|]; simpl; congruence.
Qed.

Lemma await_settled p evs w :
  promise_state p w ≠ Pending → await p evs w = (promise_state p w, w).
Proof. intros Hs. destruct evs; cbn [await]; by destruct (promise_state p w). Qed.

Lemma await_pending p ev evs w :
  promise_state p w = Pending → await p (ev :: evs) w = await p evs (step ev w).
Proof. intros Hs. cbn [await]. by rewrite Hs. Qed.

(** A call that got a registration ends in the page reached by a prefix of
    the schedule, with the outcome read off its promise. *)
Lemma registerDefaultSw_run host messaging w r :
  register host DEFAULT_SW_PATH DEFAULT_SW_SCOPE = Resolves r →
  ∃ evs1 evs2,
    schedule host = evs1 ++ evs2
    ∧ (registerDefaultSw host messaging w).2 =
        run evs1 (waitForRegistrationActive r (at_wait host r w)).2
    ∧ (registerDefaultSw host messaging w).1.1 =
        surfaces (promise_state (next_promise w)
                    (run evs1 (waitForRegistrationActive r (at_wait host r w)).2)).
Proof.
  intros Hr. rewrite (registerDefaultSw_resolves _ _ _ _ Hr). cbv zeta. cbn [fst snd].
  rewrite wait_promise.
  destruct (at_wait_frame host r w) as (_ & _ & _ & _ & Hnp & _). rewrite Hnp.
  destruct (await_prefix (next_promise w) (schedule host)
              (waitForRegistrationActive r (at_wait host r w)).2)
    as (evs1 & evs2 & H1 & H2 & H3).
  exists evs1, evs2. by rewrite H2, H3.
Qed.

Lemma Inv_at_wait host r w evs :
  World_ok w →
  Inv (observed r) (next_timer w) (next_promise w)
      (clock w + DEFAULT_REGISTRATION_TIMEOUT)%N
      (run evs (waitForRegistrationActive r (at_wait host r w)).2).
Proof.
  intros Hok. apply Inv_run.
  destruct (at_wait_frame host r w) as (Hc & _ & _ & Hnt & Hnp & _).
  rewrite <- Hc, <- Hnt, <- Hnp. by apply Inv_wait, World_ok_at_wait.
Qed.

Lemma surfaces_Returned s : surfaces s = Returned → s = Fulfilled.
Proof. by destruct s. Qed.

Lemma surfaces_settled s : surfaces s ≠ StillAwaiting → s ≠ Pending.
Proof. by destruct s. Qed.

(** ** Where a fulfilment can come from *)

Lemma step_fulfilled_observed osw t p d w ev :
  Inv osw t p d w →
  promises w !! p ≠ Some Fulfilled →
  promises (step ev w) !! p = Some Fulfilled →
  ∃ sw, osw = Some sw ∧ event_worker ev = Some sw.
Proof.
  intros HI Hnf Hf.
  assert (Hd : ∀ i target w0,
    (∀ q, promises w0 !! q = promises w !! q) →
    listener_of i w0 = listener_of i w →
    promises (dispatch i target w0) !! p = Some Fulfilled →
    osw = Some i).
  { intros i target w0 Hps Hl Hf0.
    destruct (dispatch_promise_cases i target w0 p) as [Hsame|(_ & _ & sw' & t' & Hl')].
    - rewrite Hsame, Hps in Hf0. done.
    - rewrite Hl in Hl'.
      by destruct (inv_listeners _ _ _ _ _ HI i sw' t' p Hl') as [_ [? _]]; [right|]. }
  destruct ev as [ms|t'|i s|i target].
  - done.
  - destruct (timer_fires_promise_cases t' w p) as [Hsame|[_ Hr]]; congruence.
  - exists i. split; [|done]. cbn [step] in Hf.
    apply (Hd i (Some i) (set_state i s w)); [done|apply listener_of_set_state|done].
  - exists i. split; [|done]. by apply (Hd i target w).
Qed.

Lemma run_fulfilled_observed osw t p d evs w :
  Inv osw t p d w →
  promises w !! p ≠ Some Fulfilled →
  promises (run evs w) !! p = Some Fulfilled →
  ∃ sw, osw = Some sw ∧ Exists (λ ev, event_worker ev = Some sw) evs.
Proof.
  revert w. induction evs as [|ev evs IH]; intros w HI Hnf Hf; [done|].
  rewrite run_cons in Hf.
  destruct (decide (promises (step ev w) !! p = Some Fulfilled)) as [Hnow|Hlater].
  - destruct (step_fulfilled_observed _ _ _ _ w ev HI Hnf Hnow) as (sw & Hosw & Hev).
    exists sw. split; [done|]. by apply Exists_cons_hd.
  - destruct (IH (step ev w) (Inv_step _ _ _ _ _ ev HI) Hlater Hf) as (sw & Hosw & Hex).
    exists sw. split; [done|]. by apply Exists_cons_tl.
Qed.

Lemma wait_initial_promise r w :
  let s := promises (waitForRegistrationActive r w).2 !! next_promise w in
  (is_Some (active r) ∧ s = Some Fulfilled)
  ∨ (active r = None ∧ is_Some (or_else (installing r) (waiting r)) ∧ s = Some Pending)
  ∨ (active r = None ∧ or_else (installing r) (waiting r) = None
     ∧ s = Some (Rejected (ErrorObj no_incoming_message))).
Proof.
  cbv zeta.
  destruct (active r) as [a|] eqn:Ha;
    [|destruct (or_else (installing r) (waiting r)) as [sw|] eqn:Hi].
  - destruct (wait_active r w a Ha) as (w1 & -> & _ & _ & _ & Hps & _).
    cbn [snd]. rewrite Hps, lookup_insert_eq. left. eauto.
  - destruct (wait_incoming r w sw Ha Hi) as (w1 & -> & _ & _ & _ & Hps & _).
    cbn [snd]. rewrite Hps, lookup_insert_eq. right; left. eauto.
  - destruct (wait_none r w Ha Hi) as (w1 & -> & _ & _ & _ & Hps & _).
    cbn [snd]. rewrite Hps, lookup_insert_eq. right; right. eauto.
Qed.

(** ** Time *)

Lemma step_clock ev w : clock (step ev w) = (clock w + duration ev)%N.
Proof.
  assert (Hd : ∀ i target w0, clock (dispatch i target w0) = clock w0).
  { intros i target w0.
    destruct (dispatch_cases i target w0) as [->|(sw' & t' & p' & _ & _ & ->)]; [done|].
    by destruct (run_listener_activated sw' t' p' _ w0 eq_refl) as (-> & _). }
  destruct ev as [ms|t'|i s|i target]; cbn [duration].
  - done.
  - rewrite N.add_0_r.
    destruct (timer_fires_cases t' w) as [->|(dl & p' & _ & _ & ->)]; [done|].
    by destruct (run_callback_spec p' (with_timers (delete t' (timers w)) w)) as (-> & _).
  - rewrite N.add_0_r. cbn [step]. by rewrite Hd.
  - rewrite N.add_0_r. cbn [step]. by rewrite Hd.
Qed.

Lemma run_clock evs w : clock (run evs w) = (clock w + elapsed evs)%N.
Proof.
  revert w. induction evs as [|ev evs IH]; intros w.
  - cbn. by rewrite N.add_0_r.
  - rewrite run_cons, IH, step_clock. cbn [elapsed foldr]. fold (elapsed evs). lia.
Qed.

Lemma timeout_message_not_no_incoming : timeout_message ≠ no_incoming_message.
Proof. unfold timeout_message, no_incoming_message. simpl. discriminate. Qed.

Lemma step_rejects_when_due osw t p d w ev e :
  Inv osw t p d w →
  promises w !! p = Some Pending →
  promises (step ev w) !! p = Some (Rejected e) →
  ev = TimerFires t ∧ (d ≤ clock w)%N ∧ e = ErrorObj timeout_message.
Proof.
  intros HI Hpend He.
  destruct ev as [ms|t'|sw s|sw target].
  - cbn [step with_clock promises] in He. congruence.
  - destruct (timer_fires_cases t' w) as [Hsame|(dl & p' & Htm & Hdl & Heq)].
    { rewrite Hsame in He. congruence. }
    rewrite Heq in He.
    destruct (run_callback_spec p' (with_timers (delete t' (timers w)) w))
      as (_ & _ & _ & Hps & _). rewrite Hps in He.
    cbn [with_timers promises] in He.
    destruct (decide (p = p' ∧ promises w !! p' = Some Pending)) as [[<- _]|]; [|congruence].
    destruct (inv_timers _ _ _ _ _ HI t' _ Htm) as [-> Hdue]; [by right|].
    injection Hdue as ->. injection He as <-. done.
  - cbn [step] in He.
    destruct (dispatch_promise_cases sw (Some sw) (set_state sw s w) p)
      as [Hsame|(_ & Hf & _)]; [|congruence].
    rewrite Hsame in He. cbn [set_state with_workers promises] in He. congruence.
  - cbn [step] in He.
    destruct (dispatch_promise_cases sw target w p) as [Hsame|(_ & Hf & _)]; congruence.
Qed.

Lemma timeout_rejection_is_due osw t p d evs w :
  Inv osw t p d w →
  (promises w !! p = Some (Rejected (ErrorObj timeout_message)) → (d ≤ clock w)%N) →
  promises (run evs w) !! p = Some (Rejected (ErrorObj timeout_message)) →
  (d ≤ clock (run evs w))%N.
Proof.
  revert w. induction evs as [|ev evs IH]; intros w HI Hw Hr; [by apply Hw|].
  rewrite run_cons in *. apply IH; [by apply Inv_step| |done].
  intros Hstep. rewrite step_clock.
  destruct (step_promise_cases ev w p) as [Hsame|[Hpend _]].
  - rewrite Hsame in Hstep. specialize (Hw Hstep). lia.
  - destruct (step_rejects_when_due _ _ _ _ w ev _ HI Hpend Hstep) as (_ & Hdue & _). lia.
Qed.

(** ** Events that keep the wait going *)

Lemma step_keeps_pending sw t p d w ev :
  Inv (Some sw) t p d w →
  promises w !! p = Some Pending →
  harmless sw ev →
  (ev = TimerFires t → (clock w < d)%N) →
  promises (step ev w) !! p = Some Pending.
Proof.
  intros HI Hpend Hh Hearly.
  destruct ev as [ms|t'|i s|i target].
  - done.
  - destruct (timer_fires_cases t' w) as [->|(dl & p' & Htm & Hdl & ->)]; [done|].
    destruct (run_callback_spec p' (with_timers (delete t' (timers w)) w))
      as (_ & _ & _ & -> & _).
    cbn [with_timers promises]. case_goal Hq; [|done]. destruct Hq as [<- _].
    destruct (inv_timers _ _ _ _ _ HI t' _ Htm) as [-> Htm']; [by right|].
    injection Htm' as ->. specialize (Hearly eq_refl). lia.
  - destruct (decide (i = sw)) as [->|Hne].
    + cbn [step]. rewrite dispatch_ignores; [done|].
      unfold target_state, set_state. simpl. rewrite lookup_alter_eq.
      destruct (workers w !! sw); simpl; [|done].
      intros [= ->]. by apply Hh.
    + rewrite (step_other_worker _ _ _ _ w _ i HI); [done..|congruence].
  - rewrite (step_other_worker _ _ _ _ w _ i HI); [done..|].
    simpl in Hh. congruence.
Qed.

Lemma await_harmless sw t p d evs1 evs2 w :
  Inv (Some sw) t p d w →
  promises w !! p = Some Pending →
  Forall (harmless sw) evs1 →
  (TimerFires t ∈ evs1 → (clock w + elapsed evs1 < d)%N) →
  await p (evs1 ++ evs2) w = await p evs2 (run evs1 w)
  ∧ promises (run evs1 w) !! p = Some Pending.
Proof.
  revert w. induction evs1 as [|ev evs1 IH]; intros w HI Hpend Hall Hearly; [done|].
  apply Forall_cons in Hall as [Hev Hall].
  cbn [app]. rewrite await_pending by (by apply promise_state_Some).
  rewrite run_cons. apply IH; [by apply Inv_step| |done|].
  - apply (step_keeps_pending sw t p d); [done..|].
    intros ->. cbn [elapsed foldr duration] in Hearly.
    specialize (Hearly ltac:(by apply list_elem_of_here)). lia.
  - intros Hin. rewrite step_clock. cbn [elapsed foldr] in Hearly.
    fold (elapsed evs1) in Hearly.
    specialize (Hearly ltac:(by apply list_elem_of_further)). lia.
Qed.

(** ** A second call on the same worker *)

Lemma Inv_superseded r1 r2 w sw :
  World_ok w →
  observed r1 = Some sw → observed r2 = Some sw →
  is_Some (workers w !! sw) →
  let w1 := (waitForRegistrationActive r1 w).2 in
  let w2 := (waitForRegistrationActive r2 w1).2 in
  Inv None (next_timer w) (next_promise w)
      (clock w + DEFAULT_REGISTRATION_TIMEOUT)%N w2
  ∧ listener_of sw w2 = Some (OnStateChange sw (S (next_timer w)) (S (next_promise w)))
  ∧ promises w2 !! next_promise w = Some Pending
  ∧ promises w2 !! S (next_promise w) = Some Pending.
Proof.
  intros Hok Ho1 Ho2 [o Ho] w1 w2. subst w1 w2.
  unfold observed in Ho1, Ho2.
  destruct (active r1) eqn:Ha1; [done|]. destruct (active r2) eqn:Ha2; [done|].
  destruct (wait_incoming r1 w sw Ha1 Ho1)
    as (w1 & -> & Hc1 & Hws1 & Hts1 & Hps1 & Hnt1 & Hnp1 & _). cbn [snd].
  destruct (wait_incoming r2 w1 sw Ha2 Ho2)
    as (w2 & -> & Hc2 & Hws2 & Hts2 & Hps2 & _). cbn [snd].
  rewrite Hnt1, Hnp1, Hc1 in *. rewrite Hws1 in Hws2. rewrite Hts1 in Hts2.
  rewrite Hps1 in Hps2. clear Hws1 Hts1 Hps1 Hc1 Hnt1 Hnp1.
  assert (Hl2 : listener_of sw w2 =
                Some (OnStateChange sw (S (next_timer w)) (S (next_promise w)))).
  { unfold listener_of. by rewrite Hws2, !lookup_alter_eq, Ho. }
  assert (Hp1 : promises w2 !! next_promise w = Some Pending).
  { rewrite Hps2, lookup_insert_ne by lia. apply lookup_insert_eq. }
  assert (Hp2 : promises w2 !! S (next_promise w) = Some Pending)
    by (rewrite Hps2; apply lookup_insert_eq).
  split_and!; [|done..].
  split.
  - intros i sw' t' p' Hl.
    destruct (decide (i = sw)) as [->|Hne].
    + rewrite Hl2 in Hl. injection Hl as <- <- <-. split; [done|]. lia.
    + unfold listener_of in Hl. rewrite Hws2, !lookup_alter_ne in Hl by done.
      destruct (World_ok_listener w i sw' t' p' Hok Hl) as (-> & ? & ?).
      split; [done|]. lia.
  - intros t' tm. rewrite Hts2, !lookup_insert.
    case_goal Hd2; [|case_goal Hd1].
    + intros [= <-]. cbn [callback]. intros [?|[= ?]]; lia.
    + subst t'. intros [= <-]. done.
    + intros Htm. destruct (World_ok_timer w t' tm Hok Htm) as [? Hcb].
      intros [->|Hp]; [done|]. specialize (Hcb _ Hp). lia.
  - intros _. rewrite Hts2, lookup_insert_ne by lia. rewrite lookup_insert_eq. eauto.
  - done.
  - done.
  - eauto.
  - done.
Qed.

(** X1. Two calls that observe the same worker: the second assignment to
    [onstatechange] replaces the listener of the first call. Both promises
    are pending; a state change of the worker to "activated" fulfils the
    second promise only; whatever the host does, the first promise is never
    fulfilled, and running its timer once the timeout has elapsed leaves it
    rejected with the timeout error. *)
Theorem second_call_takes_over_listener r1 r2 w sw p1 w1 p2 w2 :
  World_ok w →
  observed r1 = Some sw →
  observed r2 = Some sw →
  is_Some (workers w !! sw) →
  waitForRegistrationActive r1 w = (p1, w1) →
  waitForRegistrationActive r2 w1 = (p2, w2) →
  p1 ≠ p2
  ∧ listener_of sw w2 = Some (OnStateChange sw (next_timer w1) p2)
  ∧ promises w2 !! p1 = Some Pending
  ∧ promises w2 !! p2 = Some Pending
  ∧ promises (step (StateChange sw "activated") w2) !! p2 = Some Fulfilled
  ∧ (∀ evs, promises (run evs w2) !! p1 ≠ Some Fulfilled)
  ∧ (∀ evs, (clock w + DEFAULT_REGISTRATION_TIMEOUT ≤ clock (run evs w2))%N →
       promises (step (TimerFires (next_timer w)) (run evs w2)) !! p1
         = Some (Rejected (ErrorObj timeout_message))).
Proof.
  intros Hok Ho1 Ho2 Hin Hc1 Hc2.
  pose proof (Inv_superseded r1 r2 w sw Hok Ho1 Ho2 Hin) as Hsup.
  cbv zeta in Hsup. rewrite Hc1 in Hsup. cbn [snd] in Hsup. rewrite Hc2 in Hsup.
  cbn [snd] in Hsup. destruct Hsup as (HI & Hl & Hp1 & Hp2).
  assert (E1 : p1 = next_promise w).
  { pose proof (wait_promise r1 w) as H. by rewrite Hc1 in H. }
  assert (E2 : p2 = next_promise w1).
  { pose proof (wait_promise r2 w1) as H. by rewrite Hc2 in H. }
  assert (Hn1 : next_timer w1 = S (next_timer w) ∧ next_promise w1 = S (next_promise w)).
  { unfold observed in Ho1. destruct (active r1) eqn:Ha1; [done|].
    destruct (wait_incoming r1 w sw Ha1 Ho1) as (w1' & Heq & _ & _ & _ & _ & ? & ? & _).
    rewrite Hc1 in Heq. by injection Heq as _ <-. }
  destruct Hn1 as [Hnt Hnp]. rewrite Hnt, E2, Hnp, E1.
  assert (Hnever : ∀ evs, promises (run evs w2) !! next_promise w ≠ Some Fulfilled).
  { intros evs Hf.
    destruct (run_fulfilled_observed _ _ _ _ evs w2 HI) as (? & ? & _); [congruence|done|done]. }
  split_and!; try done.
  - cbn [step].
    assert (Hl' : listener_of sw (set_state sw "activated" w2)
                  = Some (OnStateChange sw (S (next_timer w)) (S (next_promise w))))
      by (by rewrite listener_of_set_state).
    destruct (listener_fires sw _ _ (Some sw) _ Hl') as (_ & _ & _ & Hf).
    + apply target_state_set_state. apply (run_workers [] w2).
      unfold listener_of in Hl. cbn [run foldl]. destruct (workers w2 !! sw); [eauto|done].
    + by apply Hf.
  - intros evs Hdue.
    pose proof (Inv_run _ _ _ _ evs _ HI) as HI'.
    destruct (inv_promise _ _ _ _ _ HI') as [s Hs].
    destruct (decide (promises (run evs w2) !! next_promise w = Some Pending)) as [Hpend|Hset].
    + pose proof (armed_while_pending _ _ _ _ _ HI' Hpend) as Ht.
      by destruct (due_timer_rejects _ _ _ _ Ht Hpend Hdue).
    + rewrite step_settled by done.
      assert (Hvals : ∀ evs0 w0, promises w0 !! next_promise w = Some Pending →
        promises (run evs0 w0) !! next_promise w = Some Pending
        ∨ promises (run evs0 w0) !! next_promise w = Some Fulfilled
        ∨ promises (run evs0 w0) !! next_promise w
          = Some (Rejected (ErrorObj timeout_message))).
      { clear. induction evs0 as [|ev evs0 IH]; intros w0 H0; [by left|].
        rewrite run_cons.
        destruct (step_promise_cases ev w0 (next_promise w)) as [Hsame|[_ [Hf|Hr]]].
        - apply IH. congruence.
        - right; left. rewrite run_settled; [done|congruence].
        - right; right. rewrite run_settled; [done|congruence]. }
      destruct (Hvals evs w2 Hp1) as [?|[Hf|?]]; [done| |done].
      by destruct (Hnever evs).
Qed.

(** X2. Pages stay well-formed: after a call of [waitForRegistrationActive]
    and any run of events, and after a whole call of [registerDefaultSw],
    every listener still sits on the worker it closes over, and listeners
    and timers refer only to timers and promises allocated before. *)
Theorem well_formed_pages_stay_well_formed registration host messaging w evs :
  World_ok w →
  World_ok (run evs (waitForRegistrationActive registration w).2)
  ∧ World_ok (registerDefaultSw host messaging w).2.
Proof.
  intros Hok. split.
  - by apply World_ok_run, World_ok_wait.
  - destruct (register host DEFAULT_SW_PATH DEFAULT_SW_SCOPE) as [r|e|] eqn:Hr.
    + destruct (registerDefaultSw_run host messaging w r Hr) as (evs1 & _ & _ & -> & _).
      by apply World_ok_run, World_ok_wait, World_ok_at_wait.
    + rewrite (registerDefaultSw_rejects _ _ _ _ Hr). cbn [snd].
      apply World_ok_intro;
        [intros i sw' t' p'; by apply (World_ok_listener w)
        |intros t' tm; by apply (World_ok_timer w)].
    + rewrite (registerDefaultSw_hangs _ _ _ Hr). cbn [snd].
      apply World_ok_intro;
        [intros i sw' t' p'; by apply (World_ok_listener w)
        |intros t' tm; by apply (World_ok_timer w)].
Qed.

(** X3. When the host has answered [register] and [registerDefaultSw] has
    returned or thrown, the timer of the call is no longer armed; when it
    has returned, no listener that could resolve its promise is left on any
    worker. *)
Theorem settled_call_leaves_no_timer host messaging w r :
  World_ok w →
  register host DEFAULT_SW_PATH DEFAULT_SW_SCOPE = Resolves r →
  (registerDefaultSw host messaging w).1.1 ≠ StillAwaiting →
  timers (registerDefaultSw host messaging w).2 !! next_timer w = None
  ∧ ((registerDefaultSw host messaging w).1.1 = Returned →
       ∀ sw sw' t',
         listener_of sw (registerDefaultSw host messaging w).2
           ≠ Some (OnStateChange sw' t' (next_promise w))).
Proof.
  intros Hok Hr.
  destruct (registerDefaultSw_run host messaging w r Hr) as (evs1 & _ & _ & -> & ->).
  pose proof (Inv_at_wait host r w evs1 Hok) as HI.
  intros Hs%surfaces_settled. split.
  - apply (disarmed_when_settled _ _ _ _ _ HI).
    intros Hp. by apply promise_state_Some in Hp.
  - intros Hf%surfaces_Returned sw sw' t' Hl.
    apply promise_state_settled in Hf; [|done].
    destruct (inv_listeners _ _ _ _ _ HI sw sw' t' _ Hl) as [_ [Hosw _]]; [by right|].
    rewrite (inv_fulfilled_detached _ _ _ _ _ HI sw Hosw Hf) in Hl. done.
Qed.

(** X4. A timeout is never reported early: when the host has answered
    [register] and the call throws the error carrying the timeout message,
    at least [DEFAULT_REGISTRATION_TIMEOUT] ms have passed on the host's
    clock since the call. *)
Theorem timeout_failure_is_not_early host messaging w r :
  World_ok w →
  register host DEFAULT_SW_PATH DEFAULT_SW_SCOPE = Resolves r →
  (registerDefaultSw host messaging w).1.1 =
    Threw (FirebaseError FAILED_DEFAULT_REGISTRATION (Some timeout_message)) →
  (clock w + DEFAULT_REGISTRATION_TIMEOUT ≤ clock (registerDefaultSw host messaging w).2)%N.
Proof.
  intros Hok Hr.
  destruct (registerDefaultSw_run host messaging w r Hr) as (evs1 & _ & _ & -> & ->).
  intros Hthrew.
  destruct (promise_state _ _) as [| |e] eqn:Hs; [done|done|].
  injection Hthrew as Hmsg. destruct e as [|msg|]; [done| |done].
  injection Hmsg as ->.
  apply promise_state_settled in Hs; [|done].
  apply (timeout_rejection_is_due (observed r) (next_timer w) (next_promise w) _ evs1
           (waitForRegistrationActive r (at_wait host r w)).2).
  - apply (Inv_at_wait host r w [] Hok).
  - destruct (at_wait_frame host r w) as (_ & _ & _ & _ & Hnp & _).
    pose proof (wait_initial_promise r (at_wait host r w)) as Hinit.
    cbv zeta in Hinit. rewrite Hnp in Hinit. intros Hrej.
    destruct Hinit as [(_ & Hi)|[(_ & _ & Hi)|(_ & _ & Hi)]]; rewrite Hi in Hrej;
      [done|done|].
    injection Hrej as Heq. by destruct timeout_message_not_no_incoming.
  - done.
Qed.

(** X5. The two outcomes that need no event. When the host answers
    [register] with a registration that has an active worker,
    [registerDefaultSw] returns with the page as the executor left it,
    whatever the schedule; when the registration has no worker at all, it
    throws the error carrying "No incoming service worker found.", again
    without consuming any event. *)
Theorem immediate_outcomes host messaging w r :
  register host DEFAULT_SW_PATH DEFAULT_SW_SCOPE = Resolves r →
  (is_Some (active r) →
     registerDefaultSw host messaging w =
       (Returned, <["swRegistration" := VRegistration r]> messaging,
        (waitForRegistrationActive r (at_wait host r w)).2))
  ∧ (active r = None → installing r = None → waiting r = None →
     registerDefaultSw host messaging w =
       (Threw (FirebaseError FAILED_DEFAULT_REGISTRATION
                 (Some "No incoming service worker found.")),
        <["swRegistration" := VRegistration r]> messaging,
        (waitForRegistrationActive r (at_wait host r w)).2)).
Proof.
  intros Hr. rewrite (registerDefaultSw_resolves _ _ _ _ Hr). cbv zeta.
  rewrite wait_promise.
  pose proof (wait_initial_promise r (at_wait host r w)) as Hinit. cbv zeta in Hinit.
  split.
  - intros [a Ha].
    destruct Hinit as [(_ & Hi)|[(Hn & _)|(Hn & _)]]; [|congruence..].
    apply promise_state_Some in Hi.
    rewrite await_settled by (by rewrite Hi). by rewrite Hi.
  - intros Ha Hi Hw.
    destruct Hinit as [([a Hsome] & _)|[(_ & [sw Hsome] & _)|(_ & _ & Hrej)]].
    + congruence.
    + rewrite Hi, Hw in Hsome. done.
    + apply promise_state_Some in Hrej.
      rewrite await_settled by (by rewrite Hrej). by rewrite Hrej.
Qed.

(** X6. [registerDefaultSw] returns normally only if activation was there
    or was signalled: the registration had an active worker, or the
    schedule holds an event at the worker the call observes. *)
Theorem return_needs_activation host messaging w r :
  World_ok w →
  register host DEFAULT_SW_PATH DEFAULT_SW_SCOPE = Resolves r →
  (registerDefaultSw host messaging w).1.1 = Returned →
  is_Some (active r)
  ∨ ∃ sw, observed r = Some sw
          ∧ Exists (λ ev, event_worker ev = Some sw) (schedule host).
Proof.
  intros Hok Hr.
  destruct (registerDefaultSw_run host messaging w r Hr) as (evs1 & evs2 & Hsched & _ & ->).
  intros Hf%surfaces_Returned. apply promise_state_settled in Hf; [|done].
  destruct (at_wait_frame host r w) as (_ & _ & _ & _ & Hnp & _).
  pose proof (wait_initial_promise r (at_wait host r w)) as Hinit.
  cbv zeta in Hinit. rewrite Hnp in Hinit.
  destruct Hinit as [(Ha & _)|Hinit]; [by left|right].
  destruct (run_fulfilled_observed _ _ _ _ evs1 _ (Inv_at_wait host r w [] Hok))
    as (sw & Hosw & Hex); [|done|].
  - cbn [run foldl]. destruct Hinit as [(_ & _ & ->)|(_ & _ & ->)]; done.
  - exists sw. split; [done|]. rewrite Hsched. apply Exists_app. by left.
Qed.

(** X7. Activation before the timeout: the registration has no active
    worker and an incoming one, [sw]; the host first goes through events
    that signal no activation at [sw] and let less than
    [DEFAULT_REGISTRATION_TIMEOUT] ms pass, then [sw] changes state to
    "activated". Then [registerDefaultSw] returns at that event, with the
    timer of the call disarmed, and leaves the rest of the schedule
    alone. *)
Theorem activation_before_timeout_returns host messaging w r sw before after :
  World_ok w →
  register host DEFAULT_SW_PATH DEFAULT_SW_SCOPE = Resolves r →
  active r = None →
  or_else (installing r) (waiting r) = Some sw →
  is_Some (workers w !! sw) →
  schedule host = before ++ StateChange sw "activated" :: after →
  Forall (harmless sw) before →
  (elapsed before < DEFAULT_REGISTRATION_TIMEOUT)%N →
  (registerDefaultSw host messaging w).1.1 = Returned
  ∧ (registerDefaultSw host messaging w).2 =
      step (StateChange sw "activated")
        (run before (waitForRegistrationActive r (at_wait host r w)).2)
  ∧ timers (registerDefaultSw host messaging w).2 !! next_timer w = None.
Proof.
  intros Hok Hr Ha Hi Hin Hsched Hall Htime.
  assert (Hobs : observed r = Some sw) by (unfold observed; by rewrite Ha).
  destruct (at_wait_frame host r w) as (Hc & Hw & _ & Hnt & Hnp & _).
  destruct (wait_incoming r (at_wait host r w) sw Ha Hi)
    as (w1 & Hcall & Hc1 & Hws1 & _ & Hps1 & _).
  pose proof (Inv_at_wait host r w [] Hok) as HI1.
  rewrite Hcall, Hobs in HI1. cbn [snd run foldl] in HI1.
  assert (Hp1 : promises w1 !! next_promise w = Some Pending)
    by (rewrite Hps1, Hnp; apply lookup_insert_eq).
  destruct (await_harmless sw _ _ _ before (StateChange sw "activated" :: after) w1
              HI1 Hp1 Hall) as [Hawait Hp2].
  { intros _. rewrite Hc1, Hc. lia. }
  pose proof (Inv_run _ _ _ _ before _ HI1) as HI2.
  assert (Hin2 : is_Some (workers (run before w1) !! sw)).
  { apply run_workers. rewrite Hws1, is_Some_workers_alter. by rewrite Hw. }
  pose proof (inv_pending_attached _ _ _ _ _ HI2 sw eq_refl Hin2 Hp2) as Hl.
  assert (Hl' : listener_of sw (set_state sw "activated" (run before w1))
                = Some (OnStateChange sw (next_timer w) (next_promise w)))
    by (by rewrite listener_of_set_state).
  destruct (listener_fires sw _ _ (Some sw) _ Hl'
              (target_state_set_state sw "activated" _ Hin2)) as (_ & Ht & _ & Hf).
  specialize (Hf Hp2).
  rewrite (registerDefaultSw_resolves _ _ _ _ Hr). cbv zeta. cbn [fst snd].
  rewrite Hcall. cbn [fst snd]. rewrite Hnp, Hsched, Hawait.
  rewrite await_pending by (by apply promise_state_Some).
  apply promise_state_Some in Hf.
  rewrite await_settled by (cbn [step]; by rewrite Hf).
  cbn [fst snd step]. by rewrite Hf.
Qed.

(** X8. Timeout without activation: the registration has no active worker
    and an incoming one, [sw]; the host goes through events that signal no
    activation at [sw] and do not run the timer of the call, lets at least
    [DEFAULT_REGISTRATION_TIMEOUT] ms pass, and then runs that timer. Then
    [registerDefaultSw] throws the [FAILED_DEFAULT_REGISTRATION] error
    carrying the timeout message, at that event. *)
Theorem timeout_without_activation_throws host messaging w r sw before after :
  World_ok w →
  register host DEFAULT_SW_PATH DEFAULT_SW_SCOPE = Resolves r →
  active r = None →
  or_else (installing r) (waiting r) = Some sw →
  schedule host = before ++ TimerFires (next_timer w) :: after →
  Forall (harmless sw) before →
  TimerFires (next_timer w) ∉ before →
  (DEFAULT_REGISTRATION_TIMEOUT ≤ elapsed before)%N →
  (registerDefaultSw host messaging w).1.1 =
    Threw (FirebaseError FAILED_DEFAULT_REGISTRATION (Some timeout_message))
  ∧ (registerDefaultSw host messaging w).2 =
      step (TimerFires (next_timer w))
        (run before (waitForRegistrationActive r (at_wait host r w)).2).
Proof.
  intros Hok Hr Ha Hi Hsched Hall Hnotimer Htime.
  assert (Hobs : observed r = Some sw) by (unfold observed; by rewrite Ha).
  destruct (at_wait_frame host r w) as (Hc & Hw & _ & Hnt & Hnp & _).
  destruct (wait_incoming r (at_wait host r w) sw Ha Hi)
    as (w1 & Hcall & Hc1 & Hws1 & _ & Hps1 & _).
  pose proof (Inv_at_wait host r w [] Hok) as HI1.
  rewrite Hcall, Hobs in HI1. cbn [snd run foldl] in HI1.
  assert (Hp1 : promises w1 !! next_promise w = Some Pending)
    by (rewrite Hps1, Hnp; apply lookup_insert_eq).
  destruct (await_harmless sw _ _ _ before (TimerFires (next_timer w) :: after) w1
              HI1 Hp1 Hall) as [Hawait Hp2]; [done|].
  pose proof (Inv_run _ _ _ _ before _ HI1) as HI2.
  pose proof (armed_while_pending _ _ _ _ _ HI2 Hp2) as Ht.
  destruct (due_timer_rejects _ _ _ _ Ht Hp2) as [Hrej _].
  { rewrite run_clock, Hc1, Hc. lia. }
  rewrite (registerDefaultSw_resolves _ _ _ _ Hr). cbv zeta. cbn [fst snd].
  rewrite Hcall. cbn [fst snd]. rewrite Hnp, Hsched, Hawait.
  rewrite await_pending by (by apply promise_state_Some).
  apply promise_state_Some in Hrej.
  rewrite await_settled by (by rewrite Hrej).
  cbn [fst snd]. by rewrite Hrej.
Qed.

End Proofs.

(** * The theorems at work on the sample page *)

Section Samples.
#[local] Existing Instance sample_constants.

Ltac by_computation := apply (bool_decide_unpack _); vm_compute; exact I.

(** With only a waiting worker, that one is observed. *)
Example waiting_worker_is_observed :
  listener_of 2 (waitForRegistrationActive waiting_only sample_page).2
    = Some (OnStateChange 2 0 0).
Proof. vm_compute. reflexivity. Qed.

(** The installing worker reaches "activated" 50 ms into a wait of
    10000 ms: the promise is fulfilled, and the host finds no timer to run
    at 10000 ms. *)
Example activation_at_50_ms :
  let w50 := run [Elapse 50; StateChange 1 "activated"]
               (waitForRegistrationActive installing_only sample_page).2 in
  let w10000 := run [Elapse 9950; TimerFires 0] w50 in
  promises w50 !! 0 = Some Fulfilled
  ∧ timers w50 !! 0 = None
  ∧ promises w10000 !! 0 = Some Fulfilled
  ∧ journal w10000 = journal w50.
Proof. vm_compute. done. Qed.

(** C2 on a registration with both an active and an installing worker. *)
Lemma active_registration_resolves_at_once_witness :
  active active_and_installing = Some 3
  ∧ waitForRegistrationActive active_and_installing sample_page =
      (0, (waitForRegistrationActive active_and_installing sample_page).2)
  ∧ promises (waitForRegistrationActive active_and_installing sample_page).2 !! 0
      = Some Fulfilled
  ∧ workers (waitForRegistrationActive active_and_installing sample_page).2
      = workers sample_page.
Proof.
  assert (Ha : active active_and_installing = Some 3) by reflexivity.
  assert (Hc : waitForRegistrationActive active_and_installing sample_page =
               (0, (waitForRegistrationActive active_and_installing sample_page).2))
    by (vm_compute; reflexivity).
  destruct (active_registration_resolves_at_once
              active_and_installing sample_page 3 0 _ Ha Hc) as (Hp & _ & Hw & _).
  split_and!; [exact Ha|exact Hc|exact Hp|exact Hw].
Defined.

(** C3 on a registration without any worker. *)
Lemma no_worker_rejects_at_once_witness :
  active no_worker = None ∧ installing no_worker = None ∧ waiting no_worker = None
  ∧ waitForRegistrationActive no_worker sample_page =
      (0, (waitForRegistrationActive no_worker sample_page).2)
  ∧ promises (run [Elapse 10000; TimerFires 0]
                (waitForRegistrationActive no_worker sample_page).2) !! 0
      = Some (Rejected (ErrorObj "No incoming service worker found.")).
Proof.
  assert (Hc : waitForRegistrationActive no_worker sample_page =
               (0, (waitForRegistrationActive no_worker sample_page).2))
    by (vm_compute; reflexivity).
  destruct (no_worker_rejects_at_once no_worker sample_page 0 _
              eq_refl eq_refl eq_refl Hc) as (_ & _ & _ & _ & Hlater).
  destruct (Hlater [Elapse 10000; TimerFires 0]) as [Hp _].
  split_and!; [reflexivity|reflexivity|reflexivity|exact Hc|exact Hp].
Defined.

(** C4 on a registration with an installing worker, 50 ms into the wait. *)
Lemma activated_event_resolves_witness :
  World_ok sample_page
  ∧ active installing_only = None
  ∧ or_else (installing installing_only) (waiting installing_only) = Some 1
  ∧ is_Some (workers sample_page !! 1)
  ∧ waitForRegistrationActive installing_only sample_page =
      (0, (waitForRegistrationActive installing_only sample_page).2)
  ∧ promises (step (StateChange 1 "activated")
                (run [StateChange 1 "installed"; Elapse 50]
                   (waitForRegistrationActive installing_only sample_page).2)) !! 0
      = Some Fulfilled
  ∧ promises (step (StateChange 1 "redundant")
                (run [StateChange 1 "installed"; Elapse 50]
                   (waitForRegistrationActive installing_only sample_page).2))
      = promises (run [StateChange 1 "installed"; Elapse 50]
                   (waitForRegistrationActive installing_only sample_page).2).
Proof.
  assert (Hok : World_ok sample_page) by by_computation.
  assert (Hin : is_Some (workers sample_page !! 1)) by by_computation.
  assert (Hc : waitForRegistrationActive installing_only sample_page =
               (0, (waitForRegistrationActive installing_only sample_page).2))
    by (vm_compute; reflexivity).
  pose proof (activated_event_resolves installing_only sample_page 1 0 _
                Hok eq_refl eq_refl Hin Hc) as Hthm.
  cbv zeta in Hthm. destruct Hthm as [_ Hthm].
  destruct (Hthm [StateChange 1 "installed"; Elapse 50])
    as (_ & (_ & _ & _ & Hf) & Hother & _).
  specialize (Hf ltac:(vm_compute; reflexivity)).
  destruct (Hother "redundant") as (_ & _ & Hp & _); [discriminate|].
  split_and!; [exact Hok|reflexivity|reflexivity|exact Hin|exact Hc|exact Hf|exact Hp].
Defined.

(** C5 on the same registration, once 10000 ms have passed. *)
Lemma timeout_rejects_with_duration_witness :
  World_ok sample_page
  ∧ waitForRegistrationActive installing_only sample_page =
      (0, (waitForRegistrationActive installing_only sample_page).2)
  ∧ promises (run [StateChange 1 "installed"; Elapse 10000]
                (waitForRegistrationActive installing_only sample_page).2) !! 0
      = Some Pending
  ∧ promises (step (TimerFires 0)
                (run [StateChange 1 "installed"; Elapse 10000]
                   (waitForRegistrationActive installing_only sample_page).2)) !! 0
      = Some (Rejected (ErrorObj "Service worker not registered after 10000 ms")).
Proof.
  assert (Hok : World_ok sample_page) by by_computation.
  assert (Hc : waitForRegistrationActive installing_only sample_page =
               (0, (waitForRegistrationActive installing_only sample_page).2))
    by (vm_compute; reflexivity).
  assert (Hpend : promises (run [StateChange 1 "installed"; Elapse 10000]
                   (waitForRegistrationActive installing_only sample_page).2) !! 0
                  = Some Pending) by (vm_compute; reflexivity).
  pose proof (timeout_rejects_with_duration installing_only sample_page 0 _
                [StateChange 1 "installed"; Elapse 10000] Hok Hc Hpend) as Hthm.
  cbv zeta in Hthm. destruct Hthm as (_ & _ & _ & Hfire & _).
  destruct Hfire as [Hr _]; [vm_compute; discriminate|].
  split_and!; [exact Hok|exact Hc|exact Hpend|exact Hr].
Defined.

(** C6 on a registration with an installing and a waiting worker. *)
Lemma only_installing_is_observed_witness :
  World_ok sample_page
  ∧ active installing_and_waiting = None
  ∧ installing installing_and_waiting = Some 1
  ∧ waiting installing_and_waiting = Some 2
  ∧ 1 ≠ 2
  ∧ is_Some (workers sample_page !! 1)
  ∧ waitForRegistrationActive installing_and_waiting sample_page =
      (0, (waitForRegistrationActive installing_and_waiting sample_page).2)
  ∧ promises (step (StateChange 2 "activated")
                (waitForRegistrationActive installing_and_waiting sample_page).2) !! 0
      = Some Pending.
Proof.
  assert (Hok : World_ok sample_page) by by_computation.
  assert (Hin : is_Some (workers sample_page !! 1)) by by_computation.
  assert (Hne : 1 ≠ 2) by lia.
  assert (Hc : waitForRegistrationActive installing_and_waiting sample_page =
               (0, (waitForRegistrationActive installing_and_waiting sample_page).2))
    by (vm_compute; reflexivity).
  destruct (only_installing_is_observed installing_and_waiting sample_page 1 2 0 _
              Hok eq_refl eq_refl eq_refl Hne Hin Hc) as (_ & _ & _ & Hp & _).
  split_and!; [exact Hok|reflexivity|reflexivity|reflexivity|exact Hne|exact Hin
              |exact Hc|exact Hp].
Defined.

(** C7 as the spec words it does not hold on the timeout path: with an installing worker
    and no event before the timer fires, the promise is rejected and the
    listener of the call is still on the worker. *)
Lemma observer_left_attached_after_timeout :
  promises (run [Elapse 10000; TimerFires 0]
              (waitForRegistrationActive installing_only sample_page).2) !! 0
    = Some (Rejected (ErrorObj "Service worker not registered after 10000 ms"))
  ∧ listener_of 1 (run [Elapse 10000; TimerFires 0]
                     (waitForRegistrationActive installing_only sample_page).2)
    = Some (OnStateChange 1 0 0)
  ∧ listener_of 1 (run [Elapse 10000; TimerFires 0]
                     (waitForRegistrationActive installing_only sample_page).2)
    ≠ None.
Proof. split_and!; [vm_compute; reflexivity..|vm_compute; discriminate]. Qed.

(** C7, as the code has it, on that run. *)
Lemma settles_once_and_disarms_witness :
  World_ok sample_page
  ∧ waitForRegistrationActive installing_only sample_page =
      (0, (waitForRegistrationActive installing_only sample_page).2)
  ∧ promises (run [StateChange 1 "activated"]
               (run [Elapse 10000; TimerFires 0]
                 (waitForRegistrationActive installing_only sample_page).2)) !! 0
    = promises (run [Elapse 10000; TimerFires 0]
                 (waitForRegistrationActive installing_only sample_page).2) !! 0.
Proof.
  assert (Hok : World_ok sample_page) by by_computation.
  assert (Hc : waitForRegistrationActive installing_only sample_page =
               (0, (waitForRegistrationActive installing_only sample_page).2))
    by (vm_compute; reflexivity).
  pose proof (settles_once_and_disarms installing_only sample_page 0 _
                [Elapse 10000; TimerFires 0] Hok Hc) as Hthm.
  cbv zeta in Hthm. destruct Hthm as (_ & Honce & _).
  split_and!; [exact Hok|exact Hc|].
  apply Honce. vm_compute. discriminate.
Defined.

(** C1 with a host that refuses the registration, and with one that
    answers with a registration without workers. *)
Lemma failures_surface_as_failed_default_registration_witness :
  (registerDefaultSw
     (sample_host (Rejects (ErrorObj "SecurityError")) (Resolves ()) [])
     sample_messaging sample_page).1.1
    = Threw (FirebaseError FAILED_DEFAULT_REGISTRATION (Some "SecurityError"))
  ∧ (registerDefaultSw
       (sample_host (Resolves no_worker) (Resolves ()) [])
       sample_messaging sample_page).1.1
    = Threw (FirebaseError FAILED_DEFAULT_REGISTRATION
               (Some "No incoming service worker found.")).
Proof.
  split.
  - destruct (failures_surface_as_failed_default_registration
                (sample_host (Rejects (ErrorObj "SecurityError")) (Resolves ()) [])
                sample_messaging sample_page) as (Hrej & _).
    exact (Hrej (ErrorObj "SecurityError") eq_refl).
  - destruct (failures_surface_as_failed_default_registration
                (sample_host (Resolves no_worker) (Resolves ()) [])
                sample_messaging sample_page) as (_ & Hwait & _).
    destruct (Hwait no_worker (ErrorObj "No incoming service worker found.") eq_refl)
      as [_ Hthrown]; [vm_compute; reflexivity|exact Hthrown].
Defined.

(** C8 with a host that rejects the update request while the installing
    worker goes all the way to "activated". *)
Lemma update_outcome_is_discarded_witness :
  (registerDefaultSw
     (sample_host (Resolves installing_only) (Rejects (ErrorObj "offline"))
        [StateChange 1 "installed"; StateChange 1 "activating";
         StateChange 1 "activated"])
     sample_messaging sample_page).1.1 = Returned.
Proof.
  destruct (update_outcome_is_discarded
              (sample_host (Resolves installing_only) (Rejects (ErrorObj "offline"))
                 [StateChange 1 "installed"; StateChange 1 "activating";
                  StateChange 1 "activated"])
              (λ _, Resolves ()) sample_messaging sample_page) as (_ & _ & Hok).
  apply (Hok installing_only (ErrorObj "offline") eq_refl eq_refl).
  vm_compute. reflexivity.
Defined.

(** C9 as the spec words it does not hold: the call reads [swRegistration]. *)
Lemma context_field_is_read :
  ¬ reads_no_field
      (journal (registerDefaultSw
                  (sample_host (Resolves active_and_installing) (Resolves ()) [])
                  sample_messaging sample_page).2).
Proof.
  intros Hnone. apply (Hnone "swRegistration"). by_computation.
Qed.

(** C9, as the code has it, on that call: the other fields are as before. *)
Lemma context_written_once_then_read_back_witness :
  (registerDefaultSw
     (sample_host (Resolves active_and_installing) (Resolves ()) [])
     sample_messaging sample_page).1.2 !! "vapidKey" = Some (VString "BDOU99")
  ∧ (registerDefaultSw
       (sample_host (Resolves active_and_installing) (Resolves ()) [])
       sample_messaging sample_page).1.2 !! "swRegistration"
    = Some (VRegistration active_and_installing).
Proof.
  destruct (context_written_once_then_read_back
              (sample_host (Resolves active_and_installing) (Resolves ()) [])
              sample_messaging sample_page) as (Hres & _).
  destruct (Hres active_and_installing eq_refl) as (Hm & Hother & _).
  split.
  - rewrite (Hother "vapidKey"); [vm_compute; reflexivity|discriminate].
  - rewrite Hm. vm_compute. reflexivity.
Defined.

(** C10 with a host that answers with a registration without workers, on
    a context that had no registration. *)
Lemma failed_wait_keeps_registration_witness :
  register (sample_host (Resolves no_worker) (Resolves ()) [])
    DEFAULT_SW_PATH DEFAULT_SW_SCOPE = Resolves no_worker
  ∧ (registerDefaultSw (sample_host (Resolves no_worker) (Resolves ()) [])
       sample_messaging sample_page).1.1
    = Threw (FirebaseError FAILED_DEFAULT_REGISTRATION
               (Some "No incoming service worker found."))
  ∧ sample_messaging !! "swRegistration" = None
  ∧ (registerDefaultSw (sample_host (Resolves no_worker) (Resolves ()) [])
       sample_messaging sample_page).1.2 !! "swRegistration"
    = Some (VRegistration no_worker).
Proof.
  assert (Hthrew : (registerDefaultSw (sample_host (Resolves no_worker) (Resolves ()) [])
                      sample_messaging sample_page).1.1
                   = Threw (FirebaseError FAILED_DEFAULT_REGISTRATION
                              (Some "No incoming service worker found.")))
    by (vm_compute; reflexivity).
  destruct (failed_wait_keeps_registration
              (sample_host (Resolves no_worker) (Resolves ()) [])
              sample_messaging sample_page no_worker _ eq_refl Hthrew)
    as (_ & Hkept & _).
  split_and!; [reflexivity|exact Hthrew|vm_compute; reflexivity|exact Hkept].
Defined.

(** X1 with two calls on the installing worker of the sample page. *)
Lemma second_call_takes_over_listener_witness :
  World_ok sample_page
  ∧ observed installing_only = Some 1
  ∧ observed installing_and_waiting = Some 1
  ∧ is_Some (workers sample_page !! 1)
  ∧ waitForRegistrationActive installing_only sample_page =
      (0, (waitForRegistrationActive installing_only sample_page).2)
  ∧ waitForRegistrationActive installing_and_waiting
      (waitForRegistrationActive installing_only sample_page).2 =
      (1, (waitForRegistrationActive installing_and_waiting
             (waitForRegistrationActive installing_only sample_page).2).2)
  ∧ promises (step (StateChange 1 "activated")
                (waitForRegistrationActive installing_and_waiting
                   (waitForRegistrationActive installing_only sample_page).2).2) !! 1
      = Some Fulfilled
  ∧ promises (run [StateChange 1 "activated"]
                (waitForRegistrationActive installing_and_waiting
                   (waitForRegistrationActive installing_only sample_page).2).2) !! 0
      ≠ Some Fulfilled.
Proof.
  assert (Hok : World_ok sample_page) by by_computation.
  assert (Hin : is_Some (workers sample_page !! 1)) by by_computation.
  assert (Hc1 : waitForRegistrationActive installing_only sample_page =
                (0, (waitForRegistrationActive installing_only sample_page).2))
    by (vm_compute; reflexivity).
  assert (Hc2 : waitForRegistrationActive installing_and_waiting
                  (waitForRegistrationActive installing_only sample_page).2 =
                (1, (waitForRegistrationActive installing_and_waiting
                       (waitForRegistrationActive installing_only sample_page).2).2))
    by (vm_compute; reflexivity).
  destruct (second_call_takes_over_listener installing_only installing_and_waiting
              sample_page 1 0 _ 1 _ Hok eq_refl eq_refl Hin Hc1 Hc2)
    as (_ & _ & _ & _ & Hsecond & Hfirst & _).
  split_and!; [exact Hok|reflexivity|reflexivity|exact Hin|exact Hc1|exact Hc2
              |exact Hsecond|exact (Hfirst [StateChange 1 "activated"])].
Defined.

(** X2 on the sample page. *)
Lemma well_formed_pages_stay_well_formed_witness :
  World_ok sample_page
  ∧ World_ok (run [Elapse 10000; TimerFires 0; StateChange 1 "activated"]
                (waitForRegistrationActive installing_only sample_page).2).
Proof.
  assert (Hok : World_ok sample_page) by by_computation.
  split; [exact Hok|].
  exact (proj1 (well_formed_pages_stay_well_formed installing_only
                  (sample_host NeverSettles NeverSettles []) sample_messaging sample_page
                  [Elapse 10000; TimerFires 0; StateChange 1 "activated"] Hok)).
Defined.

(** X3 with a host that lets the timeout pass. *)
Lemma settled_call_leaves_no_timer_witness :
  World_ok sample_page
  ∧ register (sample_host (Resolves installing_only) (Resolves ())
                [Elapse 10000; TimerFires 0])
      DEFAULT_SW_PATH DEFAULT_SW_SCOPE = Resolves installing_only
  ∧ (registerDefaultSw
       (sample_host (Resolves installing_only) (Resolves ()) [Elapse 10000; TimerFires 0])
       sample_messaging sample_page).1.1 ≠ StillAwaiting
  ∧ timers (registerDefaultSw
              (sample_host (Resolves installing_only) (Resolves ())
                 [Elapse 10000; TimerFires 0])
              sample_messaging sample_page).2 !! 0 = None.
Proof.
  assert (Hok : World_ok sample_page) by by_computation.
  assert (Hs : (registerDefaultSw
       (sample_host (Resolves installing_only) (Resolves ()) [Elapse 10000; TimerFires 0])
       sample_messaging sample_page).1.1 ≠ StillAwaiting) by (vm_compute; discriminate).
  destruct (settled_call_leaves_no_timer
              (sample_host (Resolves installing_only) (Resolves ())
                 [Elapse 10000; TimerFires 0])
              sample_messaging sample_page installing_only Hok eq_refl Hs) as [Ht _].
  split_and!; [exact Hok|reflexivity|exact Hs|exact Ht].
Defined.

(** X4 with the same host. *)
Lemma timeout_failure_is_not_early_witness :
  World_ok sample_page
  ∧ (registerDefaultSw
       (sample_host (Resolves installing_only) (Resolves ()) [Elapse 10000; TimerFires 0])
       sample_messaging sample_page).1.1
    = Threw (FirebaseError FAILED_DEFAULT_REGISTRATION
               (Some "Service worker not registered after 10000 ms"))
  ∧ (10000 ≤ clock (registerDefaultSw
                      (sample_host (Resolves installing_only) (Resolves ())
                         [Elapse 10000; TimerFires 0])
                      sample_messaging sample_page).2)%N.
Proof.
  assert (Hok : World_ok sample_page) by by_computation.
  assert (Hthrew : (registerDefaultSw
       (sample_host (Resolves installing_only) (Resolves ()) [Elapse 10000; TimerFires 0])
       sample_messaging sample_page).1.1
    = Threw (FirebaseError FAILED_DEFAULT_REGISTRATION (Some timeout_message)))
    by (vm_compute; reflexivity).
  split_and!; [exact Hok|exact Hthrew|].
  exact (timeout_failure_is_not_early
           (sample_host (Resolves installing_only) (Resolves ()) [Elapse 10000; TimerFires 0])
           sample_messaging sample_page installing_only Hok eq_refl Hthrew).
Defined.

(** X5 with a registration that has an active worker, and a schedule that
    is left alone. *)
Lemma immediate_outcomes_witness :
  register (sample_host (Resolves active_and_installing) (Resolves ())
              [Elapse 10000; TimerFires 0])
    DEFAULT_SW_PATH DEFAULT_SW_SCOPE = Resolves active_and_installing
  ∧ is_Some (active active_and_installing)
  ∧ (registerDefaultSw
       (sample_host (Resolves active_and_installing) (Resolves ())
          [Elapse 10000; TimerFires 0])
       sample_messaging sample_page).1.1 = Returned.
Proof.
  assert (Ha : is_Some (active active_and_installing)) by by_computation.
  destruct (immediate_outcomes
              (sample_host (Resolves active_and_installing) (Resolves ())
                 [Elapse 10000; TimerFires 0])
              sample_messaging sample_page active_and_installing eq_refl) as [Hact _].
  split_and!; [reflexivity|exact Ha|]. by rewrite (Hact Ha).
Defined.

(** X6 with a host whose schedule activates the installing worker. *)
Lemma return_needs_activation_witness :
  World_ok sample_page
  ∧ (registerDefaultSw
       (sample_host (Resolves installing_only) (Resolves ())
          [Elapse 50; StateChange 1 "activated"])
       sample_messaging sample_page).1.1 = Returned
  ∧ (is_Some (active installing_only)
     ∨ ∃ sw, observed installing_only = Some sw
             ∧ Exists (λ ev, event_worker ev = Some sw)
                 [Elapse 50; StateChange 1 "activated"]).
Proof.
  assert (Hok : World_ok sample_page) by by_computation.
  assert (Hret : (registerDefaultSw
       (sample_host (Resolves installing_only) (Resolves ())
          [Elapse 50; StateChange 1 "activated"])
       sample_messaging sample_page).1.1 = Returned) by (vm_compute; reflexivity).
  split_and!; [exact Hok|exact Hret|].
  exact (return_needs_activation
           (sample_host (Resolves installing_only) (Resolves ())
              [Elapse 50; StateChange 1 "activated"])
           sample_messaging sample_page installing_only Hok eq_refl Hret).
Defined.

(** X7 with the usual life of a worker, activated 50 ms into the wait. *)
Lemma activation_before_timeout_returns_witness :
  World_ok sample_page
  ∧ active installing_only = None
  ∧ or_else (installing installing_only) (waiting installing_only) = Some 1
  ∧ is_Some (workers sample_page !! 1)
  ∧ Forall (harmless 1) [StateChange 1 "installed"; Elapse 50; StateChange 1 "activating"]
  ∧ (elapsed [StateChange 1 "installed"; Elapse 50; StateChange 1 "activating"]
       < DEFAULT_REGISTRATION_TIMEOUT)%N
  ∧ (registerDefaultSw
       (sample_host (Resolves installing_only) (Resolves ())
          ([StateChange 1 "installed"; Elapse 50; StateChange 1 "activating"]
             ++ StateChange 1 "activated" :: [Elapse 9950; TimerFires 0]))
       sample_messaging sample_page).1.1 = Returned.
Proof.
  assert (Hok : World_ok sample_page) by by_computation.
  assert (Hin : is_Some (workers sample_page !! 1)) by by_computation.
  assert (Hall : Forall (harmless 1)
                   [StateChange 1 "installed"; Elapse 50; StateChange 1 "activating"])
    by by_computation.
  assert (Htime : (elapsed [StateChange 1 "installed"; Elapse 50; StateChange 1 "activating"]
                     < DEFAULT_REGISTRATION_TIMEOUT)%N) by (vm_compute; reflexivity).
  destruct (activation_before_timeout_returns
              (sample_host (Resolves installing_only) (Resolves ())
                 ([StateChange 1 "installed"; Elapse 50; StateChange 1 "activating"]
                    ++ StateChange 1 "activated" :: [Elapse 9950; TimerFires 0]))
              sample_messaging sample_page installing_only 1
              [StateChange 1 "installed"; Elapse 50; StateChange 1 "activating"]
              [Elapse 9950; TimerFires 0]
              Hok eq_refl eq_refl eq_refl Hin eq_refl Hall Htime) as [Hret _].
  split_and!; [exact Hok|reflexivity|reflexivity|exact Hin|exact Hall|exact Htime|exact Hret].
Defined.

(** X8 with a worker that gets installed and never activated. *)
Lemma timeout_without_activation_throws_witness :
  World_ok sample_page
  ∧ active installing_only = None
  ∧ or_else (installing installing_only) (waiting installing_only) = Some 1
  ∧ Forall (harmless 1) [StateChange 1 "installed"; Elapse 10000]
  ∧ (TimerFires 0 ∉ [StateChange 1 "installed"; Elapse 10000])
  ∧ (DEFAULT_REGISTRATION_TIMEOUT ≤ elapsed [StateChange 1 "installed"; Elapse 10000])%N
  ∧ (registerDefaultSw
       (sample_host (Resolves installing_only) (Resolves ())
          ([StateChange 1 "installed"; Elapse 10000]
             ++ TimerFires 0 :: [StateChange 1 "activated"]))
       sample_messaging sample_page).1.1
    = Threw (FirebaseError FAILED_DEFAULT_REGISTRATION
               (Some "Service worker not registered after 10000 ms")).
Proof.
  assert (Hok : World_ok sample_page) by by_computation.
  assert (Hall : Forall (harmless 1) [StateChange 1 "installed"; Elapse 10000])
    by by_computation.
  assert (Hnot : TimerFires 0 ∉ [StateChange 1 "installed"; Elapse 10000])
    by by_computation.
  assert (Htime : (DEFAULT_REGISTRATION_TIMEOUT
                     ≤ elapsed [StateChange 1 "installed"; Elapse 10000])%N)
    by (vm_compute; discriminate).
  destruct (timeout_without_activation_throws
              (sample_host (Resolves installing_only) (Resolves ())
                 ([StateChange 1 "installed"; Elapse 10000]
                    ++ TimerFires 0 :: [StateChange 1 "activated"]))
              sample_messaging sample_page installing_only 1
              [StateChange 1 "installed"; Elapse 10000] [StateChange 1 "activated"]
              Hok eq_refl eq_refl eq_refl eq_refl Hall Hnot Htime) as [Hthrew _].
  split_and!; [exact Hok|reflexivity|reflexivity|exact Hall|exact Hnot|exact Htime
              |exact Hthrew].
Defined.

End Samples.
